(** * The wallet conversation of NachoBotTS: [src/commands/wallet.ts]

    The command handler and the prompt routines of [wallet.ts] are embedded
    as resumption programs ([Prog]) over the two process-wide maps of the
    source ([userWalletStates], [userSettings]).  Every [await] on a
    collaborator (the chat transport, the wallet utilities) is a node of the
    program that the environment answers, with a value or with a rejection;
    [try]/[catch]/[finally] and the calls between the routines are run by a
    small machine with an explicit frame stack.  Calls to [Logger] are not
    modelled: they neither read nor write the session maps and take no part in
    the conversation. *)

From Stdlib Require Import ZArith.
From Stdlib Require Import PrimFloat FloatOps SpecFloat.
From stdpp Require Import base strings gmap list pretty.

Open Scope string_scope.
Open Scope Z_scope.

(** ** Data *)

(** [enum WalletState] (wallet.ts, lines 20-29). *)
Inductive WalletState :=
  | IDLE
  | NETWORK_SELECTION
  | WALLET_OPTIONS
  | WALLET_ACTIONS
  | SENDING_KASPA
  | CHECKING_BALANCE
  | VIEWING_HISTORY
  | IMPORTING_WALLET.

#[global] Instance WalletState_eq_dec : EqDecision WalletState.
Proof. solve_decision. Defined.

Definition Network := string.

(** An entry of [userSettings], with the fields this file reads or writes. *)
Record Session := mkSession {
  network : option Network;
  address : option string;
  lastActivity : Z
}.

(** The two maps: [userWalletStates] is declared at line 31, [userSettings]
    is imported from the utilities. *)
Record World := mkWorld {
  userWalletStates : gmap string WalletState;
  userSettings : gmap string Session
}.

Definition emptyWorld : World := mkWorld ∅ ∅.

(** JavaScript truthiness of an optional string: [undefined] and the empty
    string are falsy. *)
Definition truthy (o : option string) : bool :=
  match o with
  | Some s => negb (s =? EmptyString)%string
  | None => false
  end.

Inductive ChannelType := DM | GuildText.

Record Channel := mkChannel { chType : ChannelType; chId : nat }.

(** An inbound chat message. *)
Record Message := mkMessage {
  author : string;
  channel : Channel;
  content : string
}.

Inductive ButtonStyle := Primary | Secondary | Success | Danger.

Record Button := mkButton {
  buttonId : string;
  buttonLabel : string;
  buttonStyle : ButtonStyle
}.

(** Modelled from the spec: [createButton(customId, label, style)] is a
    utility outside src/.  The spec has each prompt offer the choices its call
    site names, so the button built carries the given id, label and style. *)
Definition createButton (customId label : string) (style : ButtonStyle) : Button :=
  mkButton customId label style.

Record Embed := mkEmbed {
  title : string;
  description : string;
  fields : list (string * string);
  footer : option string
}.

(** What [channel.send] is given: a text, or embeds with rows of buttons. *)
Inductive Content :=
  | Text (s : string)
  | Rich (e : Embed) (components : list (list Button)).

(** A component interaction: the button pressed and who pressed it. *)
Record Interaction := mkInteraction { customId : string; user : string }.

Record WalletInfo := mkWalletInfo {
  walletAddress : string;
  privateKey : string;
  mnemonic : string
}.

Record Balance := mkBalance {
  kaspaBalance : string;
  krc20Balances : list string
}.

Record Tx := mkTx { txId : string; txAmount : string; txType : string; txTimestamp : string }.

(** Failures: the [AppError] of the error utilities, a rejection raised by a
    collaborator, the expiry of a wait, the [RangeError] of [BigInt], the
    error an [EmbedBuilder] raises on a text it refuses, and the error built
    by [handleNetworkError]. *)
Inductive Err :=
  | AppError (message userMessage code : string)
  | Rejected (what : string)
  | Timeout
  | RangeError
  | ValidationError
  | NetworkError (cause : Err) (context : string).

(** The filter of a [channel.awaitMessages] call: the author alone (send
    flow), or the author and a well-formed private key (import). *)
Inductive MsgFilter :=
  | FromUser (userId : string)
  | FromUserWithPrivateKey (userId : string).

(** Awaited operations of the collaborators; each may reject. *)
Inductive Req :=
  | CreateDM (userId : string)
  | Reply (text : string)
  | ChannelSend (ch : Channel) (c : Content)
  | AwaitMessageComponent (message : nat) (ids : list string) (userId : string) (time : Z)
  | DeferUpdate (i : Interaction)
  | MessageDelete (message : nat)
  | AwaitMessages (ch : Channel) (filter : MsgFilter) (max : nat) (time : Z)
  | GenerateNewWallet (userId : string) (net : Network)
  | ImportWalletFromPrivateKey (key userId : string) (net : Network)
  | SendKaspa (userId : string) (amount : Z) (recipient : string) (net : Network)
  | GetBalance (userId : string) (net : option Network)
  | RetryableRequest (placeholder : list Tx) (errorMessage : string)
  | MessagesFetch (ch : Channel) (limit : nat).

(** The type of the value a request resolves with. *)
Definition ans (q : Req) : Type :=
  match q with
  | CreateDM _ => nat
  | Reply _ => unit
  | ChannelSend _ _ => nat
  | AwaitMessageComponent _ _ _ _ => Interaction
  | DeferUpdate _ => unit
  | MessageDelete _ => unit
  | AwaitMessages _ _ _ _ => list Message
  | GenerateNewWallet _ _ => WalletInfo
  | ImportWalletFromPrivateKey _ _ _ => string
  | SendKaspa _ _ _ _ => string
  | GetBalance _ _ => Balance
  | RetryableRequest _ _ => list Tx
  | MessagesFetch _ _ => list (nat * string)
  end.

(** Modelled from the spec: [checkRateLimit], [getRateLimitRemainingTime] and
    [handleError] are utilities outside src/.  The spec says the rate limiter
    "never raise[s]" and returns a boolean or a duration, and that a failure
    while delivering an error message "is logged and swallowed": these, and
    the clock, are operations the environment answers and that never
    raise. *)
Inductive Query :=
  | CheckRateLimit (userId action : string)
  | GetRateLimitRemainingTime (userId action : string)
  | DateNow
  | HandleError (e : Err) (ch : Channel) (context : string).

Definition qans (q : Query) : Type :=
  match q with
  | CheckRateLimit _ _ => bool
  | GetRateLimitRemainingTime _ _ => Z
  | DateNow => Z
  | HandleError _ _ _ => unit
  end.

(** The routines of wallet.ts that are awaited by name. *)
Inductive Fn :=
  | PromptNetworkSelection (ch : Channel) (userId : string)
  | PromptWalletOptions (ch : Channel) (userId : string) (net : Network)
  | CreateNewWallet (ch : Channel) (userId : string) (net : Network)
  | ImportExistingWallet (ch : Channel) (userId : string) (net : Network)
  | PromptWalletActions (ch : Channel) (userId : string)
  | SendKaspaPrompt (ch : Channel) (userId : string)
  | CheckBalance (ch : Channel) (userId : string)
  | ShowTransactionHistory (ch : Channel) (userId : string)
  | ShowHelpMessage (ch : Channel) (userId : string)
  | ClearChatHistory (ch : Channel) (userId : string).

(** ** Programs

    [End] is the normal end of a block; [Await q onReject k] awaits [q] and
    goes on with [k] on its value, with [onReject] on its rejection ([Throw]
    unless the source attaches a [.catch] to the promise); [Try] is
    [try { body } catch (e) { handler e }] and [TryFinally] the same with a
    [finally { fin }] block; both are followed by [k]. *)
Inductive Prog :=
  | End
  | Throw (e : Err)
  | Await (q : Req) (onReject : Err -> Prog) (k : ans q -> Prog)
  | Ask (q : Query) (k : qans q -> Prog)
  | StatesGet (userId : string) (k : option WalletState -> Prog)
  | StatesSet (userId : string) (s : WalletState) (k : Prog)
  | StatesDelete (userId : string) (k : Prog)
  | SettingsGet (userId : string) (k : option Session -> Prog)
  | SettingsSet (userId : string) (s : Session) (k : Prog)
  | Call (f : Fn) (k : Prog)
  | Try (body : Prog) (handler : Err -> Prog) (k : Prog)
  | TryFinally (body : Prog) (handler : Err -> Prog) (fin : Prog) (k : Prog).

Declare Scope prog_scope.
Delimit Scope prog_scope with prog.
Bind Scope prog_scope with Prog.

Notation "'await' x ← q ; k" := (Await q Throw (fun x => k))
  (at level 10, x name, q at level 100, k at level 200) : prog_scope.
Notation "'ask' x ← q ; k" := (Ask q (fun x => k))
  (at level 10, x name, q at level 100, k at level 200) : prog_scope.
Notation "c ;; k" := (c k%prog)
  (at level 100, k at level 200, right associativity, only parsing) : prog_scope.

(** ** Collaborators that are pure functions *)

(** The validators and [sanitizeInput] of the input-validation utilities
    (outside src/), JavaScript's [parseFloat], and the bot's own user id:
    parameters of everything that follows. *)
Class Lib := {
  validateAddress : string -> bool;
  validateAmount : string -> bool;
  validatePrivateKey : string -> bool;
  validateNetwork : string -> bool;
  sanitizeInput : string -> string;
  parseFloat : string -> float;
  botId : string
}.

(** [BigInt(x)] for a Number [x]: the integer [x] denotes, and a
    [RangeError] ([None]) when [x] is not an integer (a fraction, an infinity
    or NaN). *)
Definition BigInt (x : float) : option Z :=
  match Prim2SF x with
  | S754_zero _ => Some 0
  | S754_finite s m e =>
      let sign := if s then (-1) else 1 in
      if (0 <=? e) then Some (sign * (Z.pos m * 2 ^ e))
      else if (Z.pos m mod 2 ^ (- e) =? 0) then Some (sign * (Z.pos m / 2 ^ (- e)))
      else None
  | S754_infinity _ => None
  | S754_nan => None
  end.

(** The Number [1e8]. *)
Definition e8 : float := (100000000)%float.

(** [Math.ceil(remainingTime / 1000)] on an integral number of milliseconds. *)
Definition ceilDiv (a b : Z) : Z := - ((- a) / b).

(** [collected.first()?.content || ''] *)
Definition firstContent (collected : list Message) : string :=
  match collected with
  | m :: _ => content m
  | [] => EmptyString
  end.

(** Interpolation of an optional string in a template literal. *)
Definition showOpt (o : option string) : string :=
  match o with
  | Some s => s
  | None => "undefined"
  end.

Definition newline : string := String (Ascii.ascii_of_nat 10) EmptyString.

(** [xs.join(sep)] *)
Fixpoint join (sep : string) (xs : list string) : string :=
  match xs with
  | [] => EmptyString
  | [x] => x
  | x :: rest => x ++ sep ++ join sep rest
  end.

(** [s.length]: the number of UTF-16 code units of a text, held here as its
    UTF-8 bytes: a byte below 128 is a character of its own, a continuation
    byte (10xxxxxx) adds nothing, and the first byte of a four-byte sequence
    (1111xxxx) stands for a surrogate pair. *)
Definition codeUnits (c : Ascii.ascii) : Z :=
  match c with
  | Ascii.Ascii _ _ _ _ b4 b5 b6 b7 =>
      if negb b7 then 1
      else if negb b6 then 0
      else if b5 && b4 then 2
      else 1
  end.

Fixpoint jsLength (s : string) : Z :=
  match s with
  | EmptyString => 0
  | String c rest => codeUnits c + jsLength rest
  end.

Definition lengthWithin (lo hi : Z) (s : string) : bool :=
  (lo <=? jsLength s) && (jsLength s <=? hi).

(** The checks of [EmbedBuilder] (@discordjs/builders, imported at line 9,
    with its validation on, as it is unless switched off): [setTitle] takes
    1 to 256 characters, [setDescription] 1 to 4096, [setFooter] a text of
    1 to 2048, [addFields] at most 25 fields, each with a name of 1 to 256
    and a value of 1 to 1024 characters.  A call that is given anything else
    throws. *)
Definition validEmbed (e : Embed) : bool :=
  lengthWithin 1 256 (title e)
  && lengthWithin 1 4096 (description e)
  && (Z.of_nat (length (fields e)) <=? 25)
  && forallb (fun f => lengthWithin 1 256 (fst f) && lengthWithin 1 1024 (snd f)) (fields e)
  && match footer e with
     | Some text => lengthWithin 1 2048 text
     | None => true
     end.

Arguments validEmbed : simpl never.

(** ** The routines of wallet.ts *)

Section Routines.
Context `{Lib}.
Local Open Scope string_scope.
Local Open Scope prog_scope.

(** The guard every rate-limited routine opens with:
    [if (!checkRateLimit(userId, action)) { throw new AppError(...) }]. *)
Definition rateLimited (userId action doing : string) (k : Prog) : Prog :=
  ask allowed ← CheckRateLimit userId action ;
  if negb allowed then
    ask remainingTime ← GetRateLimitRemainingTime userId action ;
    Throw (AppError "Rate limit exceeded"
             ("You're " ++ doing ++ " too frequently. Please try again in "
                ++ pretty (ceilDiv remainingTime 1000) ++ " seconds.")
             "RATE_LIMIT_EXCEEDED")
  else k.

(** [new EmbedBuilder().setTitle(...)...] with texts that come from the user
    or from a collaborator (the confirmation of the send flow, the balance):
    the builder throws on a text it refuses, and the embed is never sent.
    The embeds of the prompts and of the help hold fixed texts, which pass
    the builder's checks; the history's holds the session's validated address
    and the placeholder transactions. *)
Definition buildEmbed (e : Embed) (k : Embed -> Prog) : Prog :=
  if validEmbed e then k e else Throw ValidationError.

(** [message.delete().catch(error => Logger.error(...))]: a failed deletion
    is logged and the routine goes on. *)
Definition deleteQuietly (message : nat) (k : Prog) : Prog :=
  Await (MessageDelete message) (fun _ => k) (fun _ => k).

(** Modelled from the spec: [generateNewWallet] and
    [importWalletFromPrivateKey] are utilities outside src/.  The spec's data
    model says the session's [address] is "set after creation/import", and
    [checkBalance] reads it from [userSettings]: a successful creation or
    import stores the new address, with the network it was made for, in the
    user's entry. *)
Definition recordWallet (userId : string) (net : Network) (addr : string) (k : Prog) : Prog :=
  ask now ← DateNow ;
  SettingsSet userId (mkSession (Some net) (Some addr) now) ;; k.

(** [userSession && userSession.network]: the recorded network when there is
    one (and it is truthy). *)
Definition networkOf (userSession : option Session) : option Network :=
  match userSession with
  | Some s => if truthy (network s) then network s else None
  | None => None
  end.

Definition networkRow : list Button :=
  [ createButton "Mainnet" "Mainnet" Primary;
    createButton "Testnet-10" "Testnet-10" Secondary;
    createButton "Testnet-11" "Testnet-11" Secondary ].

Definition networkIds : list string := ["Mainnet"; "Testnet-10"; "Testnet-11"].

(** The network-selection prompt: the embed and its row of buttons. *)
Definition networkPrompt : Content :=
  Rich (mkEmbed "Network Selection" "Please select the network you want to use:" [] None)
       [networkRow].

(** wallet.ts, lines 83-143. *)
Definition promptNetworkSelection (channel : Channel) (userId : string) : Prog :=
  rateLimited userId "networkSelection" "selecting networks"
  (Try
    (await message ← ChannelSend channel networkPrompt ;
     await interaction ← AwaitMessageComponent message networkIds userId 300000 ;
     await _ ← DeferUpdate interaction ;
     let selectedNetwork := customId interaction in
     if negb (validateNetwork selectedNetwork) then
       Throw (AppError "Invalid network" "Please select a valid network." "INVALID_NETWORK")
     else
       ask now ← DateNow ;
       SettingsSet userId (mkSession (Some selectedNetwork) None now) ;;
       deleteQuietly message ;;
       await _ ← ChannelSend channel
                   (Text ("You've selected " ++ selectedNetwork ++ ". Let's set up your wallet.")) ;
       StatesSet userId WALLET_OPTIONS ;;
       Call (PromptWalletOptions channel userId selectedNetwork) ;;
       End)
    (fun error =>
       ask _ ← HandleError
                 (AppError ("Error in network selection for user: " ++ userId)
                    "Network selection timed out. Please use the !wallet command again to restart."
                    "NETWORK_SELECTION_TIMEOUT")
                 channel "promptNetworkSelection" ;
       StatesDelete userId ;;
       End)
    End).

(** wallet.ts, lines 145-179. *)
Definition promptWalletOptions (channel : Channel) (userId : string) (net : Network) : Prog :=
  Try
    (let embed := mkEmbed "Wallet Options" "Please choose an option:" [] None in
     let row := [ createButton "create" "Create New Wallet" Primary;
                  createButton "import" "Import Existing Wallet" Secondary ] in
     await message ← ChannelSend channel (Rich embed [row]) ;
     await interaction ← AwaitMessageComponent message ["create"; "import"] userId 300000 ;
     await _ ← DeferUpdate interaction ;
     deleteQuietly message ;;
     if (customId interaction =? "create")%string then
       Call (CreateNewWallet channel userId net) ;; End
     else
       Call (ImportExistingWallet channel userId net) ;; End)
    (fun error =>
       ask _ ← HandleError error channel "promptWalletOptions" ;
       StatesDelete userId ;;
       End)
    End.

(** wallet.ts, lines 181-210. *)
Definition createNewWallet (channel : Channel) (userId : string) (net : Network) : Prog :=
  Try
    (await walletInfo ← GenerateNewWallet userId net ;
     recordWallet userId net (walletAddress walletInfo) ;;
     await _ ← ChannelSend channel
                 (Text "Your new wallet has been created. Please store this information securely:") ;
     await _ ← ChannelSend channel (Text ("Address: " ++ walletAddress walletInfo)) ;
     await _ ← ChannelSend channel (Text ("Private Key: " ++ privateKey walletInfo)) ;
     await _ ← ChannelSend channel (Text ("Mnemonic: " ++ mnemonic walletInfo)) ;
     await _ ← ChannelSend channel
                 (Text "⚠️ WARNING: Never share your private key or mnemonic with anyone!") ;
     StatesSet userId WALLET_ACTIONS ;;
     Call (PromptWalletActions channel userId) ;;
     End)
    (fun error =>
       ask _ ← HandleError
                 (AppError ("Error creating wallet for user: " ++ userId)
                    "An error occurred while creating your wallet. Please try again."
                    "WALLET_CREATION_ERROR")
                 channel "createNewWallet" ;
       StatesSet userId WALLET_OPTIONS ;;
       Call (PromptWalletOptions channel userId net) ;;
       End)
    End.

(** wallet.ts, lines 212-247. *)
Definition importExistingWallet (channel : Channel) (userId : string) (net : Network) : Prog :=
  StatesSet userId IMPORTING_WALLET ;;
  Try
    (await _ ← ChannelSend channel (Text "Please enter your private key:") ;
     await privateKeyResponse ← AwaitMessages channel (FromUserWithPrivateKey userId) 1 60000 ;
     let key := sanitizeInput (firstContent privateKeyResponse) in
     await walletAddr ← ImportWalletFromPrivateKey key userId net ;
     recordWallet userId net walletAddr ;;
     await _ ← ChannelSend channel
                 (Text ("Your wallet has been imported successfully. Address: " ++ walletAddr)) ;
     StatesSet userId WALLET_ACTIONS ;;
     Call (PromptWalletActions channel userId) ;;
     End)
    (fun error =>
       ask _ ← HandleError error channel "importExistingWallet" ;
       StatesSet userId WALLET_OPTIONS ;;
       Call (PromptWalletOptions channel userId net) ;;
       End)
    End.

Definition actionRows : list (list Button) :=
  [ [ createButton "send" "Send Kaspa" Primary;
      createButton "balance" "Check Balance" Secondary;
      createButton "history" "Transaction History" Secondary ];
    [ createButton "help" "Help" Secondary;
      createButton "clear" "Clear Chat" Danger;
      createButton "back" "Back" Secondary ] ].

Definition actionIds : list string := ["send"; "balance"; "history"; "help"; "clear"; "back"].

(** wallet.ts, lines 249-317.  The [switch] is followed by the re-prompt of
    line 311, except in the [back] case, which returns. *)
Definition promptWalletActions (channel : Channel) (userId : string) : Prog :=
  Try
    (rateLimited userId "walletActions" "performing wallet actions"
      (let embed := mkEmbed "Wallet Actions" "What would you like to do?" [] None in
       await message ← ChannelSend channel (Rich embed actionRows) ;
       await interaction ← AwaitMessageComponent message actionIds userId 300000 ;
       await _ ← DeferUpdate interaction ;
       let again := Call (PromptWalletActions channel userId) End in
       let id := customId interaction in
       if (id =? "send")%string then Call (SendKaspaPrompt channel userId) ;; again
       else if (id =? "balance")%string then Call (CheckBalance channel userId) ;; again
       else if (id =? "history")%string then Call (ShowTransactionHistory channel userId) ;; again
       else if (id =? "help")%string then Call (ShowHelpMessage channel userId) ;; again
       else if (id =? "clear")%string then Call (ClearChatHistory channel userId) ;; again
       else if (id =? "back")%string then
         StatesSet userId NETWORK_SELECTION ;;
         Call (PromptNetworkSelection channel userId) ;;
         End
       else again))
    (fun error =>
       ask _ ← HandleError error channel "promptWalletActions" ;
       StatesSet userId WALLET_ACTIONS ;;
       Call (PromptWalletActions channel userId) ;;
       End)
    End.

Definition confirmIds : list string := ["confirm_send"; "cancel_send"].

Definition explorerUrl (net : Network) (txId : string) : string :=
  if (net =? "Mainnet")%string then "https://explorer.kaspa.org/txs/" ++ txId
  else if (net =? "Testnet-10")%string then "https://explorer-tn10.kaspa.org/txs/" ++ txId
  else if (net =? "Testnet-11")%string then "https://explorer-tn11.kaspa.org/txs/" ++ txId
  else "Transaction ID: " ++ txId.

(** wallet.ts, lines 319-420. *)
Definition sendKaspaPrompt (channel : Channel) (userId : string) : Prog :=
  StatesSet userId SENDING_KASPA ;;
  TryFinally
    (SettingsGet userId (fun userSession =>
     match networkOf userSession with
     | None =>
         Throw (AppError "Invalid Session"
                  "Your wallet session is invalid. Please start over with the !wallet command."
                  "INVALID_SESSION")
     | Some net =>
         await _ ← ChannelSend channel (Text "Please enter the recipient's Kaspa address:") ;
         await addressResponse ← AwaitMessages channel (FromUser userId) 1 60000 ;
         let recipientAddress := sanitizeInput (firstContent addressResponse) in
         if negb (validateAddress recipientAddress) then
           Throw (AppError "Invalid Address" "The recipient address you entered is invalid."
                    "INVALID_ADDRESS")
         else
         await _ ← ChannelSend channel (Text "Please enter the amount of KAS to send:") ;
         await amountResponse ← AwaitMessages channel (FromUser userId) 1 60000 ;
         let amount := sanitizeInput (firstContent amountResponse) in
         if negb (validateAmount amount) then
           Throw (AppError "Invalid Amount" "The amount you entered is invalid." "INVALID_AMOUNT")
         else
         buildEmbed
           (mkEmbed "Confirm Transaction" "Please confirm the transaction details:"
              [ ("Amount", amount ++ " KAS"); ("Recipient Address", recipientAddress) ] None)
           (fun confirmEmbed =>
         let confirmRow := [ createButton "confirm_send" "Confirm" Success;
                             createButton "cancel_send" "Cancel" Danger ] in
         await confirmMessage ← ChannelSend channel (Rich confirmEmbed [confirmRow]) ;
         Try
           (await confirmation ← AwaitMessageComponent confirmMessage confirmIds userId 60000 ;
            await _ ← DeferUpdate confirmation ;
            if (customId confirmation =? "confirm_send")%string then
              match BigInt (PrimFloat.mul (parseFloat amount) e8) with
              | None => Throw RangeError
              | Some sompi =>
                  await txId ← SendKaspa userId sompi recipientAddress net ;
                  await _ ← ChannelSend channel
                              (Text ("Transaction completed successfully! View on Explorer here: "
                                       ++ explorerUrl net txId)) ;
                  End
              end
            else
              await _ ← ChannelSend channel (Text "Transaction cancelled.") ;
              End)
           (fun interactionError =>
              await _ ← ChannelSend channel
                          (Text "The confirmation interaction failed or timed out. Please try the transaction again.") ;
              End)
           End)
     end))
    (fun error =>
       ask _ ← HandleError error channel "sendKaspaPrompt" ;
       End)
    (StatesSet userId WALLET_ACTIONS ;;
     Call (PromptWalletActions channel userId) ;;
     End)
    End.

(** The embed of lines 441-449. *)
Definition balanceEmbed (session : Session) (balance : Balance) : Embed :=
  mkEmbed "Wallet Balance" ("Balance for " ++ showOpt (address session))
    [ ("Kaspa Balance", kaspaBalance balance);
      ("KRC20 Tokens",
       if (0 <? Z.of_nat (length (krc20Balances balance)))%Z
       then join newline (krc20Balances balance) else "No KRC20 tokens") ]
    (Some ("Network: " ++ showOpt (network session))).

(** wallet.ts, lines 422-456. *)
Definition checkBalance (channel : Channel) (userId : string) : Prog :=
  Try
    (rateLimited userId "checkBalance" "checking balance"
      (SettingsGet userId (fun userSession =>
       match userSession with
       | Some session =>
           if truthy (address session) then
             await balance ← GetBalance userId (network session) ;
             buildEmbed (balanceEmbed session balance) (fun embed =>
             await _ ← ChannelSend channel (Rich embed []) ;
             End)
           else
             Throw (AppError "Invalid wallet"
                      "Your wallet is not set up correctly. Please create a new wallet."
                      "INVALID_WALLET")
       | None =>
           Throw (AppError "Invalid wallet"
                    "Your wallet is not set up correctly. Please create a new wallet."
                    "INVALID_WALLET")
       end)))
    (fun error =>
       ask _ ← HandleError error channel "checkBalance" ;
       End)
    End.

Definition placeholderHistory : list Tx :=
  [ mkTx "tx1" "10" "Received" "2023-04-01 10:00:00";
    mkTx "tx2" "5" "Sent" "2023-04-02 15:30:00" ].

(** wallet.ts, lines 555-573: the placeholder request goes through
    [retryableRequest]; its failure is rethrown as the error that
    [handleNetworkError] builds. *)
Definition getTransactionHistory (addr : string) (net : option Network)
    (k : list Tx -> Prog) : Prog :=
  Await (RetryableRequest placeholderHistory "Error fetching transaction history")
    (fun error => Throw (NetworkError error "fetching transaction history"))
    k.

(** wallet.ts, lines 458-491. *)
Definition showTransactionHistory (channel : Channel) (userId : string) : Prog :=
  Try
    (rateLimited userId "showTransactionHistory" "viewing transaction history"
      (SettingsGet userId (fun userSession =>
       let invalid :=
         Throw (AppError "Invalid wallet"
                  "Your wallet address is invalid. Please create a new wallet."
                  "INVALID_WALLET") in
       match userSession with
       | Some session =>
           if truthy (address session) && validateAddress (showOpt (address session)) then
             getTransactionHistory (showOpt (address session)) (network session) (fun history =>
             let embed :=
               mkEmbed "Transaction History"
                 ("Recent transactions for " ++ showOpt (address session))
                 (imap (fun index tx =>
                          ("Transaction " ++ pretty (S index),
                           "ID: " ++ txId tx ++ newline ++ "Amount: " ++ txAmount tx ++ " KAS"
                             ++ newline ++ "Type: " ++ txType tx ++ newline
                             ++ "Timestamp: " ++ txTimestamp tx))
                    (take 5 history))
                 (Some ("Network: " ++ showOpt (network session))) in
             await _ ← ChannelSend channel (Rich embed []) ;
             End)
           else invalid
       | None => invalid
       end)))
    (fun error =>
       ask _ ← HandleError error channel "showTransactionHistory" ;
       End)
    End.

(** wallet.ts, lines 493-522. *)
Definition showHelpMessage (channel : Channel) (userId : string) : Prog :=
  Try
    (rateLimited userId "showHelpMessage" "requesting help messages"
      (let embed :=
         mkEmbed "Wallet Help" "Here are the available wallet commands:"
           [ ("Send Kaspa", "Send Kaspa to another address");
             ("Check Balance", "View your current Kaspa and KRC20 token balances");
             ("Transaction History", "View your recent transactions");
             ("Back", "Return to the main wallet menu") ]
           (Some "For more help, visit our documentation or contact support.") in
       await _ ← ChannelSend channel (Rich embed []) ;
       End))
    (fun error =>
       ask _ ← HandleError error channel "showHelpMessage" ;
       End)
    End.

(** [for (const message of botMessages.values()) { await message.delete(); }] *)
Fixpoint deleteEach (messages : list nat) (k : Prog) : Prog :=
  match messages with
  | [] => k
  | m :: rest => await _ ← MessageDelete m ; deleteEach rest k
  end.

(** wallet.ts, lines 524-553. *)
Definition clearChatHistory (channel : Channel) (userId : string) : Prog :=
  Try
    (rateLimited userId "clearChatHistory" "clearing chat history"
      (match chType channel with
       | DM =>
           await messages ← MessagesFetch channel 100 ;
           let botMessages := filter (fun m => snd m = botId) messages in
           deleteEach (map fst botMessages)
             (await _ ← ChannelSend channel
                         (Text "Bot messages have been cleared. For security, please manually delete any of your messages containing sensitive information.") ;
              End)
       | GuildText =>
           Throw (AppError "Invalid Channel" "Chat history can only be cleared in DM channels."
                    "INVALID_CHANNEL_TYPE")
       end))
    (fun error =>
       ask _ ← HandleError error channel "clearChatHistory" ;
       End)
    End.

Definition welcomeText : string :=
  "Welcome to your private Kat Wallet Session. Let's start by choosing which Network you'll be using.".

Definition dmNotice : string := "I've sent you a DM to start your wallet session!".

(** The body of each routine. *)
Definition body (f : Fn) : Prog :=
  match f with
  | PromptNetworkSelection ch u => promptNetworkSelection ch u
  | PromptWalletOptions ch u net => promptWalletOptions ch u net
  | CreateNewWallet ch u net => createNewWallet ch u net
  | ImportExistingWallet ch u net => importExistingWallet ch u net
  | PromptWalletActions ch u => promptWalletActions ch u
  | SendKaspaPrompt ch u => sendKaspaPrompt ch u
  | CheckBalance ch u => checkBalance ch u
  | ShowTransactionHistory ch u => showTransactionHistory ch u
  | ShowHelpMessage ch u => showHelpMessage ch u
  | ClearChatHistory ch u => clearChatHistory ch u
  end.

(** wallet.ts, lines 33-81: the handler of the wallet command. *)
Definition handleWalletCommand (message : Message) : Prog :=
  let userId := author message in
  let dispatch (ch : Channel) : Prog :=
    StatesGet userId (fun found =>
    let currentState := default IDLE found in
    if bool_decide (currentState ∈ [SENDING_KASPA; IMPORTING_WALLET]) then
      End
    else
      Try
        (SettingsGet userId (fun userSession =>
         match currentState with
         | IDLE =>
             await _ ← ChannelSend ch (Text welcomeText) ;
             Call (PromptNetworkSelection ch userId) ;; End
         | NETWORK_SELECTION =>
             Call (PromptNetworkSelection ch userId) ;; End
         | WALLET_OPTIONS =>
             match networkOf userSession with
             | Some net => Call (PromptWalletOptions ch userId net) ;; End
             | None => Call (PromptNetworkSelection ch userId) ;; End
             end
         | WALLET_ACTIONS =>
             Call (PromptWalletActions ch userId) ;; End
         | _ =>
             StatesSet userId IDLE ;;
             Call (PromptNetworkSelection ch userId) ;;
             End
         end))
        (fun error =>
           ask _ ← HandleError error ch "handleWalletCommand" ;
           End)
        End) in
  match chType (channel message) with
  | DM => dispatch (channel message)
  | GuildText =>
      await dm ← CreateDM userId ;
      await _ ← Reply dmNotice ;
      dispatch (mkChannel DM dm)
  end.

End Routines.

(** ** The machine *)

(** What remains to be done around the running block: the rest of a sequence
    ([KSeq]), a pending [catch] ([KCatch]), a pending [finally] ([KFinally]),
    and the error a [finally] block rethrows when it ends ([KRethrow]). *)
Inductive Frame :=
  | KSeq (k : Prog)
  | KCatch (handler : Err -> Prog)
  | KFinally (fin : Prog)
  | KRethrow (e : Err).

(** What has been asked of the collaborators, with what came back (newest
    first). *)
Inductive Event :=
  | EvReq (q : Req) (r : Err + ans q)
  | EvAsk (q : Query) (v : qans q).

(** The environment: what the [n]-th interaction with a collaborator yields. *)
Record Env := mkEnv {
  reply : nat -> forall q : Req, Err + ans q;
  tell : nat -> forall q : Query, qans q
}.

Record MState := mkState {
  prog : Prog;
  stack : list Frame;
  world : World;
  trace : list Event
}.

Section Machine.
Context `{Lib}.

(** The [filter] option of [awaitMessages]. *)
Definition passes (f : MsgFilter) (m : Message) : bool :=
  match f with
  | FromUser userId => (author m =? userId)%string
  | FromUserWithPrivateKey userId =>
      (author m =? userId)%string && validatePrivateKey (content m)
  end.

(** A wait resolves only with what its filter lets through: a button among
    the expected ones pressed by the expected user, at most [max] messages
    that pass the message filter. *)
Definition accepts (q : Req) : ans q -> bool :=
  match q with
  | AwaitMessageComponent _ ids userId _ =>
      fun i => bool_decide (customId i ∈ ids) && (user i =? userId)%string
  | AwaitMessages _ f max _ =>
      fun collected => forallb (passes f) collected && (length collected <=? max)%nat
  | _ => fun _ => true
  end.

(** Anything else the environment offers to a wait is ignored until the
    deadline: the wait rejects. *)
Definition settle (q : Req) (r : Err + ans q) : Err + ans q :=
  match r with
  | inl e => inl e
  | inr v => if accepts q v then inr v else inl Timeout
  end.

Definition setState (userId : string) (s : WalletState) (w : World) : World :=
  mkWorld (<[userId := s]> (userWalletStates w)) (userSettings w).

Definition deleteState (userId : string) (w : World) : World :=
  mkWorld (delete userId (userWalletStates w)) (userSettings w).

Definition setSession (userId : string) (s : Session) (w : World) : World :=
  mkWorld (userWalletStates w) (<[userId := s]> (userSettings w)).

(** One step; [None] when the program has run to its end (normally, or with
    an error nothing catches). *)
Definition step (env : Env) (st : MState) : option MState :=
  let stk := stack st in
  let w := world st in
  let tr := trace st in
  match prog st with
  | End =>
      match stk with
      | [] => None
      | KSeq k :: rest => Some (mkState k rest w tr)
      | KCatch _ :: rest => Some (mkState End rest w tr)
      | KFinally fin :: rest => Some (mkState fin rest w tr)
      | KRethrow e :: rest => Some (mkState (Throw e) rest w tr)
      end
  | Throw e =>
      match stk with
      | [] => None
      | KSeq _ :: rest => Some (mkState (Throw e) rest w tr)
      | KCatch handler :: rest => Some (mkState (handler e) rest w tr)
      | KFinally fin :: rest => Some (mkState fin (KRethrow e :: rest) w tr)
      | KRethrow _ :: rest => Some (mkState (Throw e) rest w tr)
      end
  | Await q onReject k =>
      let r := settle q (reply env (length tr) q) in
      Some (mkState (match r with inl e => onReject e | inr v => k v end)
              stk w (EvReq q r :: tr))
  | Ask q k =>
      let v := tell env (length tr) q in
      Some (mkState (k v) stk w (EvAsk q v :: tr))
  | StatesGet userId k => Some (mkState (k (userWalletStates w !! userId)) stk w tr)
  | StatesSet userId s k => Some (mkState k stk (setState userId s w) tr)
  | StatesDelete userId k => Some (mkState k stk (deleteState userId w) tr)
  | SettingsGet userId k => Some (mkState (k (userSettings w !! userId)) stk w tr)
  | SettingsSet userId s k => Some (mkState k stk (setSession userId s w) tr)
  | Call f k => Some (mkState (body f) (KSeq k :: stk) w tr)
  | Try b handler k => Some (mkState b (KCatch handler :: KSeq k :: stk) w tr)
  | TryFinally b handler fin k =>
      Some (mkState b (KCatch handler :: KFinally fin :: KSeq k :: stk) w tr)
  end.

(** How a run ends: at a state where it was told to stop, with the program
    returning, with an error thrown out of it, or with the fuel spent. *)
Inductive Stop :=
  | Stopped (st : MState)
  | Returned (st : MState)
  | Uncaught (e : Err) (st : MState)
  | OutOfFuel (st : MState).

Fixpoint run (stop : MState -> bool) (env : Env) (fuel : nat) (st : MState) : Stop :=
  if stop st then Stopped st
  else
    match fuel with
    | O => OutOfFuel st
    | S fuel' =>
        match step env st with
        | Some st' => run stop env fuel' st'
        | None =>
            match prog st with
            | Throw e => Uncaught e st
            | _ => Returned st
            end
        end
    end.

Definition final (r : Stop) : MState :=
  match r with
  | Stopped st | Returned st | Uncaught _ st | OutOfFuel st => st
  end.

(** Stop conditions: at the call of another routine; at a wait for a button
    or a message; never. *)
Definition atCall (st : MState) : bool :=
  match prog st with
  | Call _ _ => true
  | _ => false
  end.

Definition atWait (st : MState) : bool :=
  match prog st with
  | Await (AwaitMessageComponent _ _ _ _) _ _ => true
  | Await (AwaitMessages _ _ _ _) _ _ => true
  | _ => false
  end.

Definition toEnd (st : MState) : bool := false.

(** The calls of one kind of routine. *)
Definition atCallOf (which : Fn -> bool) (st : MState) : bool :=
  match prog st with
  | Call f _ => which f
  | _ => false
  end.

(** A program started on its own: empty stack, empty trace. *)
Definition start (p : Prog) (w : World) : MState := mkState p [] w [].

End Machine.

Arguments run {_} stop env !fuel !st : simpl nomatch.

(** ** Reading a trace *)

(** The [sendKaspa] calls of a trace: user, amount in sompi, recipient,
    network. *)
Definition sendKaspaCall (ev : Event) : option (string * Z * string * Network) :=
  match ev with
  | EvReq (SendKaspa userId amount recipient net) _ => Some (userId, amount, recipient, net)
  | _ => None
  end.

Definition sendKaspaCalls (tr : list Event) : list (string * Z * string * Network) :=
  omap sendKaspaCall tr.

(** Equality of two lists of button ids. *)
Fixpoint sameIds (a b : list string) : bool :=
  match a, b with
  | [], [] => true
  | x :: a', y :: b' => (x =? y)%string && sameIds a' b'
  | _, _ => false
  end.

(** The button a component wait for [ids] resolved with, if it resolved. *)
Definition pressed (ids : list string) (ev : Event) : option string :=
  match ev with
  | EvReq q r =>
      match q return Err + ans q -> option string with
      | AwaitMessageComponent _ ids' _ _ =>
          fun r => match r with
                   | inr i => if sameIds ids' ids then Some (customId i) else None
                   | inl _ => None
                   end
      | _ => fun _ => None
      end r
  | EvAsk _ _ => None
  end.

(** A component wait for [ids] that ended without a press: it was rejected,
    or nothing its filter accepts arrived before the deadline. *)
Definition unanswered (ids : list string) (ev : Event) : bool :=
  match ev with
  | EvReq q r =>
      match q return Err + ans q -> bool with
      | AwaitMessageComponent _ ids' _ _ =>
          fun r => match r with
                   | inr _ => false
                   | inl _ => sameIds ids' ids
                   end
      | _ => fun _ => false
      end r
  | EvAsk _ _ => false
  end.

(** A [deferUpdate] of a press of [id] that went through. *)
Definition deferred (id : string) (ev : Event) : bool :=
  match ev with
  | EvReq q r =>
      match q return Err + ans q -> bool with
      | DeferUpdate i =>
          fun r => match r with
                   | inr _ => (customId i =? id)%string
                   | inl _ => false
                   end
      | _ => fun _ => false
      end r
  | EvAsk _ _ => false
  end.

Definition confirmPressed (ev : Event) : bool :=
  match pressed confirmIds ev with
  | Some id => (id =? "confirm_send")%string
  | None => false
  end.

(** The confirm branch of the send flow was taken: the confirmation wait
    resolved with [confirm_send] and the interaction was acknowledged. *)
Definition confirmTaken (tr : list Event) : bool :=
  existsb confirmPressed tr && existsb (deferred "confirm_send") tr.

Definition deferralRejected (ev : Event) : bool :=
  match ev with
  | EvReq q r =>
      match q return Err + ans q -> bool with
      | DeferUpdate _ =>
          fun r => match r with
                   | inr _ => false
                   | inl _ => true
                   end
      | _ => fun _ => false
      end r
  | EvAsk _ _ => false
  end.

(** The confirmation step ended without the confirm branch: the wait was
    left unanswered (a timeout, or any failure of the wait), [cancel_send]
    was pressed, or the acknowledgement of the press failed. *)
Definition confirmationAborted (ev : Event) : bool :=
  unanswered confirmIds ev
  || match pressed confirmIds ev with
     | Some id => (id =? "cancel_send")%string
     | None => false
     end
  || deferralRejected ev.

(** The texts the message waits of a trace resolved with, oldest first. *)
Definition heard (ev : Event) : option string :=
  match ev with
  | EvReq q r =>
      match q return Err + ans q -> option string with
      | AwaitMessages _ _ _ _ =>
          fun r => match r with
                   | inr collected => Some (firstContent collected)
                   | inl _ => None
                   end
      | _ => fun _ => None
      end r
  | EvAsk _ _ => None
  end.

Definition entered (tr : list Event) : list string := omap heard (rev tr).

(** The deadline of a wait. *)
Definition deadline (q : Req) : option Z :=
  match q with
  | AwaitMessageComponent _ _ _ time => Some time
  | AwaitMessages _ _ _ time => Some time
  | _ => None
  end.

Definition isButtonWait (q : Req) : bool :=
  match q with
  | AwaitMessageComponent _ _ _ _ => true
  | _ => false
  end.

Definition isTextWait (q : Req) : bool :=
  match q with
  | AwaitMessages _ _ _ _ => true
  | _ => false
  end.

(** The requests of a trace, oldest first. *)
Definition requests (tr : list Event) : list Req :=
  omap (fun ev => match ev with EvReq q _ => Some q | EvAsk _ _ => None end) (rev tr).

(** The errors handed to [handleError], oldest first. *)
Definition reported (tr : list Event) : list Err :=
  omap (fun ev => match ev with EvAsk (HandleError e _ _) _ => Some e | _ => None end) (rev tr).

(** An interaction that did not stand in the way: a request that was not
    rejected, a rate-limit check that allowed. *)
Definition unhindered (ev : Event) : bool :=
  match ev with
  | EvReq _ (inl _) => false
  | EvReq _ (inr _) => true
  | EvAsk q v =>
      match q return qans q -> bool with
      | CheckRateLimit _ _ => fun allowed => allowed
      | _ => fun _ => true
      end v
  end.

(** The machine-oriented code of an [AppError]. *)
Definition codeOf (e : Err) : option string :=
  match e with
  | AppError _ _ code => Some code
  | _ => None
  end.

Definition isGetBalance (q : Req) : bool :=
  match q with
  | GetBalance _ _ => true
  | _ => false
  end.

Definition isRetryableRequest (q : Req) : bool :=
  match q with
  | RetryableRequest _ _ => true
  | _ => false
  end.

(** ** Sample collaborators and scripted conversations

    Concrete validators and a concrete environment, to run the routines on
    given conversations. *)

Definition digitOf (c : Ascii.ascii) : option Z :=
  let n := Z.of_nat (Ascii.nat_of_ascii c) in
  if (48 <=? n) && (n <=? 57) then Some (n - 48) else None.

(** Reads a run of decimal digits: the value accumulated, how many digits
    were read, and what follows them. *)
Fixpoint readDigits (s : string) (acc : Z) (count : nat) : Z * nat * string :=
  match s with
  | String c rest =>
      match digitOf c with
      | Some d => readDigits rest (10 * acc + d) (S count)
      | None => (acc, count, s)
      end
  | EmptyString => (acc, count, s)
  end.

Definition floatOfZ (n : Z) : float := PrimFloat.of_uint63 (Uint63Axioms.of_Z n).

(** [parseFloat] on a plain decimal literal [ddd] or [ddd.ddd] (a prefix of
    the text): the binary64 number nearest to it, obtained as the correctly
    rounded quotient of the digits by the power of ten, both of which are
    exact as long as the literal has at most 15 digits.  NaN when the text
    does not start with a digit or a point followed by a digit. *)
Definition parseDecimal (s : string) : float :=
  let '(whole, nWhole, rest) := readDigits s 0 0 in
  match rest with
  | String c frac =>
      if (Z.of_nat (Ascii.nat_of_ascii c) =? 46) then
        let '(digits, nFrac, _) := readDigits frac whole 0 in
        if (nWhole + nFrac =? 0)%nat then PrimFloat.nan
        else PrimFloat.div (floatOfZ digits) (floatOfZ (10 ^ Z.of_nat nFrac))
      else if (nWhole =? 0)%nat then PrimFloat.nan else floatOfZ whole
  | EmptyString => if (nWhole =? 0)%nat then PrimFloat.nan else floatOfZ whole
  end.

(** A number [x] with [x > 0] ([false] for NaN). *)
Definition positive (x : float) : bool := PrimFloat.ltb PrimFloat.zero x.

#[local] Instance sampleLib : Lib := {
  validateAddress := String.prefix "kaspa:";
  validateAmount := fun s => positive (parseDecimal s);
  validatePrivateKey := fun s => (String.length s =? 64)%nat;
  validateNetwork := fun s => bool_decide (s ∈ networkIds);
  sanitizeInput := fun s => s;
  parseFloat := parseDecimal;
  botId := "bot"
}.

(** One entry per interaction: the collaborator fails, succeeds, the user
    presses a button or says something, the rate limiter refuses. *)
Inductive Scripted :=
  | Fails (e : Err)
  | Fine
  | Press (id : string)
  | Says (text : string)
  | Refused.

Definition filterUser (f : MsgFilter) : string :=
  match f with
  | FromUser userId => userId
  | FromUserWithPrivateKey userId => userId
  end.

Definition answer (a : Scripted) (q : Req) : Err + ans q :=
  match a with
  | Fails e => inl e
  | _ =>
      match q return Err + ans q with
      | CreateDM _ => inr 7%nat
      | Reply _ => inr tt
      | ChannelSend _ _ => inr 0%nat
      | AwaitMessageComponent _ _ userId _ =>
          match a with
          | Press id => inr (mkInteraction id userId)
          | _ => inl Timeout
          end
      | DeferUpdate _ => inr tt
      | MessageDelete _ => inr tt
      | AwaitMessages ch f _ _ =>
          match a with
          | Says text => inr [mkMessage (filterUser f) ch text]
          | _ => inl Timeout
          end
      | GenerateNewWallet _ _ => inr (mkWalletInfo "kaspa:new" "key" "words")
      | ImportWalletFromPrivateKey _ _ _ => inr "kaspa:imported"
      | SendKaspa _ _ _ _ => inr "tx0"
      | GetBalance _ _ => inr (mkBalance "0" [])
      | RetryableRequest placeholder _ => inr placeholder
      | MessagesFetch _ _ => inr []
      end
  end.

Definition inform (a : Scripted) (q : Query) : qans q :=
  match q return qans q with
  | CheckRateLimit _ _ => match a with Refused => false | _ => true end
  | GetRateLimitRemainingTime _ _ => 1500
  | DateNow => 0
  | HandleError _ _ _ => tt
  end.

(** The environment that follows a script; past its end every wait times
    out. *)
Definition scripted (script : list Scripted) : Env :=
  mkEnv (fun n q => answer (nth n script (Fails Timeout)) q)
        (fun n q => inform (nth n script Fine) q).

Definition dmChannel : Channel := mkChannel DM 1.

(** ** Checking every node of a program *)

(** What a program does at a node, as far as the checks below look. *)
Inductive Node :=
  | NReq (q : Req)
  | NAsk (q : Query)
  | NStatesSet (userId : string) (s : WalletState)
  | NStatesDelete (userId : string)
  | NSettingsSet (userId : string) (s : Session)
  | NCall (f : Fn).

Section Analysis.
Context `{Lib}.

(** [every P p]: every node of [p] satisfies [P], whatever the collaborators
    answer (a wait only continues with an answer its filter accepts). *)
Fixpoint every (P : Node -> Prop) (p : Prog) : Prop :=
  match p with
  | End => True
  | Throw _ => True
  | Await q onReject k =>
      P (NReq q) /\ (forall e, every P (onReject e))
      /\ (forall v, accepts q v = true -> every P (k v))
  | Ask q k => P (NAsk q) /\ (forall v, every P (k v))
  | StatesGet _ k => forall found, every P (k found)
  | StatesSet userId s k => P (NStatesSet userId s) /\ every P k
  | StatesDelete userId k => P (NStatesDelete userId) /\ every P k
  | SettingsGet _ k => forall found, every P (k found)
  | SettingsSet userId s k => P (NSettingsSet userId s) /\ every P k
  | Call f k => P (NCall f) /\ every P k
  | Try b handler k => every P b /\ (forall e, every P (handler e)) /\ every P k
  | TryFinally b handler fin k =>
      every P b /\ (forall e, every P (handler e)) /\ every P fin /\ every P k
  end.

Definition everyFrame (P : Node -> Prop) (fr : Frame) : Prop :=
  match fr with
  | KSeq k => every P k
  | KCatch handler => forall e, every P (handler e)
  | KFinally fin => every P fin
  | KRethrow _ => True
  end.

Definition everyEvent (P : Node -> Prop) (ev : Event) : Prop :=
  match ev with
  | EvReq q _ => P (NReq q)
  | EvAsk q _ => P (NAsk q)
  end.

(** [P] holds of all that a machine state may still do and of all it has
    asked so far. *)
Definition everywhere (P : Node -> Prop) (st : MState) : Prop :=
  every P (prog st) /\ Forall (everyFrame P) (stack st) /\ Forall (everyEvent P) (trace st).

(** The deadlines of the source: 60 seconds for the confirmation buttons of
    the send flow and for every text, 300 seconds for the other buttons. *)
Definition deadlineRule (q : Req) : Prop :=
  match q with
  | AwaitMessageComponent _ ids _ time =>
      time = if sameIds ids confirmIds then 60000 else 300000
  | AwaitMessages _ _ _ time => time = 60000
  | _ => True
  end.

(** The deadlines as the specification words them: 300 seconds for every
    button wait, 60 seconds for every text. *)
Definition uniformDeadlineRule (q : Req) : Prop :=
  match q with
  | AwaitMessageComponent _ _ _ time => time = 300000
  | AwaitMessages _ _ _ time => time = 60000
  | _ => True
  end.

Definition onRequests (R : Req -> Prop) (n : Node) : Prop :=
  match n with
  | NReq q => R q
  | _ => True
  end.

(** A node that neither writes [userWalletStates] nor calls a routine. *)
Definition quietNode (n : Node) : Prop :=
  match n with
  | NStatesSet _ _ => False
  | NStatesDelete _ => False
  | NCall _ => False
  | _ => True
  end.

(** A node that does not assign one of the two states no routine enters. *)
Definition assignsUsedState (n : Node) : Prop :=
  match n with
  | NStatesSet _ s => s <> CHECKING_BALANCE /\ s <> VIEWING_HISTORY
  | _ => True
  end.

(** A program whose run cannot end with an error thrown out of it. *)
Fixpoint contained (p : Prog) : Prop :=
  match p with
  | End => True
  | Throw _ => False
  | Await q onReject k =>
      (forall e, contained (onReject e)) /\ (forall v, accepts q v = true -> contained (k v))
  | Ask _ k => forall v, contained (k v)
  | StatesGet _ k => forall found, contained (k found)
  | StatesSet _ _ k => contained k
  | StatesDelete _ k => contained k
  | SettingsGet _ k => forall found, contained (k found)
  | SettingsSet _ _ k => contained k
  | Call _ _ => False
  | Try _ handler k => (forall e, contained (handler e)) /\ contained k
  | TryFinally _ handler fin k =>
      (forall e, contained (handler e)) /\ contained fin /\ contained k
  end.

(** The states that belong to a session whose network has been chosen. *)
Definition needsNet (s : WalletState) : bool :=
  match s with
  | IDLE => false
  | NETWORK_SELECTION => false
  | _ => true
  end.

Definition hasNetwork (w : World) (userId : string) : bool :=
  match userSettings w !! userId with
  | Some session => truthy (network session)
  | None => false
  end.

(** What a routine relies on when it is called for [userId]: the routines
    past the network selection are only called once the network is known to
    be recorded, and with a network that is not empty. *)
Definition fnPre (userId : string) (known : bool) (f : Fn) : Prop :=
  match f with
  | PromptNetworkSelection _ u => u = userId
  | PromptWalletOptions _ u net => u = userId /\ known = true /\ truthy (Some net) = true
  | CreateNewWallet _ u net => u = userId /\ known = true /\ truthy (Some net) = true
  | ImportExistingWallet _ u net => u = userId /\ known = true /\ truthy (Some net) = true
  | PromptWalletActions _ u => u = userId /\ known = true
  | SendKaspaPrompt _ u => u = userId /\ known = true
  | CheckBalance _ u => u = userId
  | ShowTransactionHistory _ u => u = userId
  | ShowHelpMessage _ u => u = userId
  | ClearChatHistory _ u => u = userId
  end.

(** [netOk userId known p]: [p] works on [userId]'s entries only, records
    only sessions with a network, and assigns a state that needs a network
    only where the network is known to be recorded ([known], which a read of
    the maps or a write of the session can establish). *)
Fixpoint netOk (userId : string) (known : bool) (p : Prog) : Prop :=
  match p with
  | End => True
  | Throw _ => True
  | Await q onReject k =>
      (forall e, netOk userId known (onReject e))
      /\ (forall v, accepts q v = true -> netOk userId known (k v))
  | Ask _ k => forall v, netOk userId known (k v)
  | StatesGet u k =>
      u = userId
      /\ (forall found,
            netOk userId (known || from_option needsNet false found) (k found))
  | StatesSet u s k =>
      u = userId /\ (needsNet s = true -> known = true) /\ netOk userId known k
  | StatesDelete u k => netOk userId known k
  | SettingsGet u k =>
      u = userId
      /\ (forall found,
            netOk userId (known || from_option (fun s => truthy (network s)) false found)
              (k found))
  | SettingsSet u s k =>
      u = userId /\ truthy (network s) = true /\ netOk userId true k
  | Call f k => fnPre userId known f /\ netOk userId known k
  | Try b handler k =>
      netOk userId known b /\ (forall e, netOk userId known (handler e))
      /\ netOk userId known k
  | TryFinally b handler fin k =>
      netOk userId known b /\ (forall e, netOk userId known (handler e))
      /\ netOk userId known fin /\ netOk userId known k
  end.

Definition netOkFrame (userId : string) (known : bool) (fr : Frame) : Prop :=
  match fr with
  | KSeq k => netOk userId known k
  | KCatch handler => forall e, netOk userId known (handler e)
  | KFinally fin => netOk userId known fin
  | KRethrow _ => True
  end.

(** The session maps are consistent: a state that needs a network is only
    recorded for a user whose session has one. *)
Definition worldOk (w : World) : Prop :=
  forall userId s,
    userWalletStates w !! userId = Some s -> needsNet s = true ->
    hasNetwork w userId = true.

(** ** The process: any number of conversations over the shared maps

    Each inbound wallet command starts a flow ([handleWalletCommand]); the
    flows take their steps in any order, each step with any answer of the
    collaborators.  (JavaScript only switches flows at an [await]; letting
    them switch at every step allows more interleavings, not fewer.) *)
Record Sys := mkSys {
  shared : World;
  flows : list (Prog * list Frame)
}.

Inductive sysStep : Sys -> Sys -> Prop :=
  | sysDispatch w fs message :
      sysStep (mkSys w fs) (mkSys w (fs ++ [(handleWalletCommand message, [])]))
  | sysAdvance w fs i p stk env st' :
      fs !! i = Some (p, stk) ->
      step env (mkState p stk w []) = Some st' ->
      sysStep (mkSys w fs) (mkSys (world st') (<[i := (prog st', stack st')]> fs)).

Definition reachable (s : Sys) : Prop := rtc sysStep (mkSys emptyWorld []) s.

(** What a flow relies on: it works for one user, whose network is recorded
    if the flow counts on it. *)
Definition flowOk (w : World) (p : Prog) (stk : list Frame) : Prop :=
  exists userId known,
    (known = true -> hasNetwork w userId = true)
    /\ netOk userId known p
    /\ Forall (netOkFrame userId known) stk.

(** No user is recorded in one of the two states no routine enters. *)
Definition onlyUsedStates (w : World) : Prop :=
  forall userId,
    userWalletStates w !! userId <> Some CHECKING_BALANCE
    /\ userWalletStates w !! userId <> Some VIEWING_HISTORY.

(** The environment as seen [n] interactions later. *)
Definition later (n : nat) (env : Env) : Env :=
  mkEnv (fun i => reply env (n + i)) (fun i => tell env (n + i)).

(** [runs env st st']: the machine goes from [st] to [st'] in some number of
    steps. *)
Inductive runs (env : Env) : MState -> MState -> Prop :=
  | runs_here st : runs env st st
  | runs_step st st' st'' : step env st = Some st' -> runs env st' st'' -> runs env st st''.

End Analysis.

(** ** Conversations used as examples *)

Definition alice : string := "alice".

Definition dmCommand : Message := mkMessage alice dmChannel "!wallet".

(** A session with a network and a wallet, at the actions menu. *)
Definition readyWorld : World :=
  mkWorld {[ alice := WALLET_ACTIONS ]}
          {[ alice := mkSession (Some "Mainnet") (Some "kaspa:me") 0 ]}.


(** The send flow: the two prompts are delivered and answered, the
    confirmation is shown, pressed and acknowledged; what follows succeeds. *)
Definition sendScript (recipient amount button : string) : list Scripted :=
  [ Fine; Says recipient; Fine; Says amount; Fine; Press button; Fine; Fine; Fine ].

(** From the command to the network prompt: welcome, rate limiter, prompt. *)
Definition triggerScript : list Scripted := [ Fine; Fine; Fine ].

(** Network chosen, wallet created, then in the actions menu: a send flow
    that fails at once, [back], a network prompt that cannot be delivered
    (which discards the state entry), and, in the menu the unwinding flow
    shows again, [balance]. *)
Definition staleMenuScript : list Scripted :=
  [ Fine; Fine; Fine; Press "Mainnet"; Fine; Fine; Fine; Fine;
    Fine; Press "create"; Fine; Fine;
    Fine; Fine; Fine; Fine; Fine; Fine; Fine;
    Fine; Fine; Press "send"; Fine;
    Fails Timeout; Fine;
    Fine; Fine; Press "back"; Fine;
    Fine; Fails Timeout; Fine;
    Fine; Fine; Press "balance"; Fine ].

(** From the actions menu into the send flow, which is confirmed. *)
Definition menuSendScript : list Scripted :=
  [ Fine; Fine; Press "send"; Fine ] ++ sendScript "kaspa:bob" "1.5" "confirm_send".

(** The network prompt is shown and never answered. *)
Definition unansweredNetworkScript : list Scripted := [ Fine; Fine; Fails Timeout ].

(** The network prompt is answered with Testnet-10. *)
Definition networkChoiceScript : list Scripted :=
  [ Fine; Fine; Press "Testnet-10"; Fine; Fine; Fine; Fine ].

(** The four actions of the menu that only show something. *)
Definition isViewAction (f : Fn) : bool :=
  match f with
  | CheckBalance _ _ => true
  | ShowTransactionHistory _ _ => true
  | ShowHelpMessage _ _ => true
  | ClearChatHistory _ _ => true
  | _ => false
  end.

Definition isPromptWalletOptions (f : Fn) : bool :=
  match f with
  | PromptWalletOptions _ _ _ => true
  | _ => false
  end.

(** The states the specification lists as having a network. *)
Definition pastNetworkSelection : list WalletState :=
  [ WALLET_OPTIONS; WALLET_ACTIONS; SENDING_KASPA; IMPORTING_WALLET;
    CHECKING_BALANCE; VIEWING_HISTORY ].

(** The command, then a network selection that goes through. *)
Definition selectionScript : list Scripted :=
  [ Fine; Fine; Fine; Press "Mainnet"; Fine; Fine; Fine; Fine ].

Definition isCheckBalance (f : Fn) : bool :=
  match f with
  | CheckBalance _ _ => true
  | _ => false
  end.


(** ** Further readings of programs and traces *)

(** The routines that may let an error out: the network selection throws its
    rate-limit error before its [try] (lines 86-93); every other routine
    catches whatever its body raises. *)
Definition neverThrows (f : Fn) : bool :=
  match f with
  | PromptNetworkSelection _ _ => false
  | _ => true
  end.

(** The user a routine is called for. *)
Definition fnUser (f : Fn) : string :=
  match f with
  | PromptNetworkSelection _ u => u
  | PromptWalletOptions _ u _ => u
  | CreateNewWallet _ u _ => u
  | ImportExistingWallet _ u _ => u
  | PromptWalletActions _ u => u
  | SendKaspaPrompt _ u => u
  | CheckBalance _ u => u
  | ShowTransactionHistory _ u => u
  | ShowHelpMessage _ u => u
  | ClearChatHistory _ u => u
  end.


(** A node that writes, or calls a routine for, [userId] only. *)
Definition ownWrites (userId : string) (n : Node) : Prop :=
  match n with
  | NStatesSet u _ => u = userId
  | NStatesDelete u => u = userId
  | NSettingsSet u _ => u = userId
  | NCall f => fnUser f = userId
  | _ => True
  end.

(** A node that writes neither map and calls nothing. *)
Definition readOnlyNode (n : Node) : Prop :=
  match n with
  | NStatesSet _ _ => False
  | NStatesDelete _ => False
  | NSettingsSet _ _ => False
  | NCall _ => False
  | _ => True
  end.

(** The messages a trace asked to delete, oldest first. *)
Definition deletions (tr : list Event) : list nat :=
  omap (fun q => match q with MessageDelete m => Some m | _ => None end) (requests tr).

(** What the fetches of a trace returned: message ids with their authors. *)
Definition fetched (ev : Event) : list (nat * string) :=
  match ev with
  | EvReq q r =>
      match q return Err + ans q -> list (nat * string) with
      | MessagesFetch _ _ =>
          fun r => match r with
                   | inr messages => messages
                   | inl _ => []
                   end
      | _ => fun _ => []
      end r
  | EvAsk _ _ => []
  end.

Definition fetchedMessages (tr : list Event) : list (nat * string) :=
  concat (fetched <$> rev tr).

(** The private keys a trace handed to the import. *)
Definition importedKeys (tr : list Event) : list string :=
  omap (fun q => match q with ImportWalletFromPrivateKey key _ _ => Some key | _ => None end)
       (requests tr).

Section Safety.
Context `{Lib}.

(** [calm p]: run on its own, [p] ends normally: it throws nothing that it
    does not catch, and only calls routines that never throw. *)
Fixpoint calm (p : Prog) : Prop :=
  match p with
  | End => True
  | Throw _ => False
  | Await q onReject k =>
      (forall e, calm (onReject e)) /\ (forall v, accepts q v = true -> calm (k v))
  | Ask _ k => forall v, calm (k v)
  | StatesGet _ k => forall found, calm (k found)
  | StatesSet _ _ k => calm k
  | StatesDelete _ k => calm k
  | SettingsGet _ k => forall found, calm (k found)
  | SettingsSet _ _ k => calm k
  | Call f k => neverThrows f = true /\ calm k
  | Try _ handler k => (forall e, calm (handler e)) /\ calm k
  | TryFinally _ handler fin k =>
      (forall e, calm (handler e)) /\ calm fin /\ calm k
  end.

(** An error thrown on top of this stack meets a [catch] before the bottom. *)
Fixpoint caught (stk : list Frame) : bool :=
  match stk with
  | [] => false
  | KCatch _ :: _ => true
  | _ :: rest => caught rest
  end.

(** Each frame's program, when its turn comes, is calm or runs above a
    [catch]; an error waiting to be rethrown has a [catch] below it. *)
Fixpoint okStack (stk : list Frame) : Prop :=
  match stk with
  | [] => True
  | KSeq k :: rest => (calm k \/ caught rest = true) /\ okStack rest
  | KCatch handler :: rest => ((forall e, calm (handler e)) \/ caught rest = true) /\ okStack rest
  | KFinally fin :: rest => (calm fin \/ caught rest = true) /\ okStack rest
  | KRethrow _ :: rest => caught rest = true /\ okStack rest
  end.

Definition guarded (st : MState) : Prop :=
  (calm (prog st) \/ caught (stack st) = true) /\ okStack (stack st).

End Safety.

(** The errors the collaborators rejected requests with, oldest first. *)
Definition rejection (ev : Event) : option Err :=
  match ev with
  | EvReq _ (inl e) => Some e
  | _ => None
  end.

Definition rejections (tr : list Event) : list Err := omap rejection (rev tr).

(** A transfer the wallet refused. *)
Definition transferRejected (ev : Event) : bool :=
  match ev with
  | EvReq (SendKaspa _ _ _ _) (inl _) => true
  | _ => false
  end.

(** What the send flow says when its confirmation step fails (line 404). *)
Definition confirmationFailed : string :=
  "The confirmation interaction failed or timed out. Please try the transaction again.".

Definition isPromptNetworkSelection (f : Fn) : bool :=
  match f with
  | PromptNetworkSelection _ _ => true
  | _ => false
  end.

(** Stop at the call of any routine but the network selection. *)
Definition pastSelection (st : MState) : bool :=
  atCallOf (fun f => negb (isPromptNetworkSelection f)) st.

(** What [clearChatHistory] says when it is done (line 544). *)
Definition clearedNotice : string :=
  "Bot messages have been cleared. For security, please manually delete any of your messages containing sensitive information.".

(** An environment that follows a script while the rate limiter refuses one
    kind of action, at all times, and allows the others. *)
Definition limiting (action : string) (script : list Scripted) : Env :=
  mkEnv (fun n q => answer (nth n script (Fails Timeout)) q)
        (fun n q =>
           match q return qans q with
           | CheckRateLimit _ a => negb (a =? action)%string
           | GetRateLimitRemainingTime _ _ => 1500
           | DateNow => 0
           | HandleError _ _ _ => tt
           end).

(** The send flow confirmed, and the transfer refused by the wallet. *)
Definition refusedTransferScript : list Scripted :=
  [ Fine; Says "kaspa:bob"; Fine; Says "1.5"; Fine; Press "confirm_send"; Fine;
    Fails (Rejected "insufficient funds"); Fine ].

(** The menu is shown and [back] is pressed. *)
Definition backScript : list Scripted := [ Fine; Fine; Press "back"; Fine ].

(** What the clock said at each [Date.now()], oldest first. *)
Definition clockReading (ev : Event) : option Z :=
  match ev with
  | EvAsk q v =>
      match q return qans q -> option Z with
      | DateNow => fun now => Some now
      | _ => fun _ => None
      end v
  | EvReq _ _ => None
  end.

Definition clockReadings (tr : list Event) : list Z := omap clockReading (rev tr).



(** Stop at a wait for the user, once [n] interactions have taken place. *)
Definition atWaitAfter (n : nat) (st : MState) : bool :=
  (n <=? length (trace st))%nat && atWait st.

(** Network chosen, wallet created, then in the actions menu: a send flow
    that fails at once, [back] in the menu it re-opens, and a network prompt
    that is shown and never answered (which discards the state entry).  The
    unwinding send flow then shows the menu again; [send] is pressed there,
    that send flow fails at once as well, and the menu is shown once more. *)
Definition timedOutSelectionScript : list Scripted :=
  [ Fine; Fine; Fine; Press "Mainnet"; Fine; Fine; Fine; Fine;
    Fine; Press "create"; Fine; Fine;
    Fine; Fine; Fine; Fine; Fine; Fine; Fine;
    Fine; Fine; Press "send"; Fine;
    Fails Timeout; Fine;
    Fine; Fine; Press "back"; Fine;
    Fine; Fine; Fails Timeout; Fine;
    Fine; Fine; Press "send"; Fine;
    Fails Timeout; Fine;
    Fine; Fine ].

(** The deletions the transport rejected, with the error of each, oldest
    first. *)
Definition rejectedDeletion (ev : Event) : option (nat * Err) :=
  match ev with
  | EvReq (MessageDelete m) (inl e) => Some (m, e)
  | _ => None
  end.

Definition rejectedDeletions (tr : list Event) : list (nat * Err) :=
  omap rejectedDeletion (rev tr).


(** * Proofs *)

(** Symbolic execution: run the machine as far as it computes, and split on
    whatever the program is waiting to learn (an answer of the environment,
    the outcome of a validation, the content of a map). *)
Ltac split_prog :=
  lazymatch goal with
  | |- context [run _ _ _ (mkState ?p _ _ _)] =>
      lazymatch p with
      | match ?x with _ => _ end => destruct x eqn:?
      end
  end.

Ltac symbolic := repeat (simpl; split_prog); simpl.

Ltac unnegb :=
  repeat match goal with
  | H : negb _ = true |- _ => apply negb_true_iff in H
  | H : negb _ = false |- _ => apply negb_false_iff in H
  end.

Ltac use_string_tests :=
  repeat match goal with
  | H : (_ =? _)%string = _ |- _ => rewrite H
  end.

(** ** The embeds with fixed texts *)

(** The embeds of the network prompt, the wallet options, the actions menu
    and the help pass the checks of the builder. *)
Lemma fixed_embeds_pass :
  Forall (fun e => validEmbed e = true)
    [ mkEmbed "Network Selection" "Please select the network you want to use:" [] None;
      mkEmbed "Wallet Options" "Please choose an option:" [] None;
      mkEmbed "Wallet Actions" "What would you like to do?" [] None;
      mkEmbed "Wallet Help" "Here are the available wallet commands:"
        [ ("Send Kaspa", "Send Kaspa to another address");
          ("Check Balance", "View your current Kaspa and KRC20 token balances");
          ("Transaction History", "View your recent transactions");
          ("Back", "Return to the main wallet menu") ]
        (Some "For more help, visit our documentation or contact support.") ].
Proof. repeat (constructor; [vm_compute; reflexivity|]). constructor. Qed.

(** ** The send flow *)

Section SendFlow.
Context `{Lib}.

(** Every run of [sendKaspaPrompt], up to the call that hands the
    conversation back to the actions menu (line 418). *)
Lemma sendKaspaPrompt_run env ch u w :
  exists st',
    run atCall env 40 (start (sendKaspaPrompt ch u) w) = Stopped st'
    /\ prog st' = Call (PromptWalletActions ch u) End
    /\ stack st' = [KSeq End]
    /\ world st' = setState u WALLET_ACTIONS (setState u SENDING_KASPA w)
    /\ (confirmTaken (trace st') = false -> sendKaspaCalls (trace st') = [])
    /\ (existsb confirmationAborted (trace st') = true -> sendKaspaCalls (trace st') = [])
    /\ (forall a rest, entered (trace st') = a :: rest ->
          validateAddress (sanitizeInput a) = false -> sendKaspaCalls (trace st') = [])
    /\ (confirmTaken (trace st') = true ->
          exists a b net,
            entered (trace st') = [a; b]
            /\ networkOf (userSettings w !! u) = Some net
            /\ validateAddress (sanitizeInput a) = true
            /\ validateAmount (sanitizeInput b) = true
            /\ sendKaspaCalls (trace st') =
                 match BigInt (PrimFloat.mul (parseFloat (sanitizeInput b)) e8) with
                 | Some sompi => [(u, sompi, sanitizeInput a, net)]
                 | None => []
                 end).
Proof.
  unfold start, sendKaspaPrompt, buildEmbed.
  symbolic.
  all: eexists; split; [reflexivity|]; simpl.
  all: split; [reflexivity|]; split; [reflexivity|]; split; [reflexivity|].
  all: unfold confirmTaken, entered; simpl; unnegb.
  all: try (split; [intros; reflexivity|]; split; [intros; reflexivity|];
            split; [intros; reflexivity|]; intros; discriminate).
  all: unfold confirmationAborted, confirmPressed, pressed, confirmIds; simpl.
  all: use_string_tests; simpl.
  all: rewrite ?orb_false_r, ?andb_false_r.
  all: repeat split; intros; simplify_eq; try done; try congruence.
  all: try (do 3 eexists; split; [reflexivity|]; repeat split; try eassumption;
            try reflexivity;
            match goal with H : BigInt _ = _ |- _ => rewrite H end; reflexivity).
  all: exfalso;
    match goal with
    | H : (customId ?i =? "confirm_send")%string = true |- _ =>
        apply String.eqb_eq in H; rewrite H in *; discriminate
    end.
Qed.

(** C1. In every run of the send flow, if the confirmation step ends with
    [cancel_send], with a timeout or any other failure of the wait, or with a
    failed acknowledgement, [sendKaspa] is never invoked; it is invoked only
    when the confirm branch is taken. *)
Theorem sendKaspa_only_on_confirm env ch u w :
  exists st',
    run atCall env 40 (start (sendKaspaPrompt ch u) w) = Stopped st'
    /\ (existsb confirmationAborted (trace st') = true -> sendKaspaCalls (trace st') = [])
    /\ (confirmTaken (trace st') = false -> sendKaspaCalls (trace st') = []).
Proof.
  destruct (sendKaspaPrompt_run env ch u w) as (st' & Hrun & _ & _ & _ & Hno & Habort & _).
  exists st'. auto.
Qed.

(** C2. Every run of the send flow reaches the hand-over to the actions menu
    with the user's state set back to WALLET_ACTIONS, nothing else changed in
    the two maps; and when the recipient address entered fails validation,
    [sendKaspa] is not called. *)
Theorem sendKaspaPrompt_returns_to_actions env ch u w :
  exists st',
    run atCall env 40 (start (sendKaspaPrompt ch u) w) = Stopped st'
    /\ prog st' = Call (PromptWalletActions ch u) End
    /\ userWalletStates (world st') = <[u := WALLET_ACTIONS]> (userWalletStates w)
    /\ userSettings (world st') = userSettings w
    /\ (forall a rest, entered (trace st') = a :: rest ->
          validateAddress (sanitizeInput a) = false -> sendKaspaCalls (trace st') = []).
Proof.
  destruct (sendKaspaPrompt_run env ch u w)
    as (st' & Hrun & Hprog & _ & Hw & _ & _ & Haddr & _).
  exists st'. rewrite Hw. simpl.
  repeat split; try assumption.
  apply insert_insert_eq.
Qed.

(** When the confirm branch is taken, both entered texts passed validation,
    and [sendKaspa] is called once with the integer [BigInt] makes of the
    product, or not at all when [BigInt] raises. *)
Lemma sendKaspaPrompt_confirmed env ch u w :
  exists st',
    run atCall env 40 (start (sendKaspaPrompt ch u) w) = Stopped st'
    /\ (confirmTaken (trace st') = true ->
          exists a b net,
            entered (trace st') = [a; b]
            /\ networkOf (userSettings w !! u) = Some net
            /\ validateAddress (sanitizeInput a) = true
            /\ validateAmount (sanitizeInput b) = true
            /\ sendKaspaCalls (trace st') =
                 match BigInt (PrimFloat.mul (parseFloat (sanitizeInput b)) e8) with
                 | Some sompi => [(u, sompi, sanitizeInput a, net)]
                 | None => []
                 end).
Proof.
  destruct (sendKaspaPrompt_run env ch u w) as (st' & Hrun & _ & _ & _ & _ & _ & _ & Hc).
  exists st'. auto.
Qed.

End SendFlow.

(** ** The amount handed to [sendKaspa] *)

(** C3. A send of 0.29 KAS, with a valid address, an amount the validator
    accepts and a press of [confirm_send]: the product
    [parseFloat("0.29") * 1e8] is the Number 28999999.999999996, [BigInt]
    raises a RangeError on it, and the flow reports a failed confirmation
    without ever calling [sendKaspa]. *)
Theorem send_of_0_29_is_never_sent :
  let r := run atCall (scripted (sendScript "kaspa:bob" "0.29" "confirm_send")) 40
             (start (sendKaspaPrompt dmChannel alice) readyWorld) in
  validateAddress "kaspa:bob" = true
  /\ validateAmount "0.29" = true
  /\ confirmTaken (trace (final r)) = true
  /\ PrimFloat.mul (parseFloat "0.29") e8 = (0x1.ba813ffffffffp+24)%float
  /\ BigInt (PrimFloat.mul (parseFloat "0.29") e8) = None
  /\ sendKaspaCalls (trace (final r)) = []
  /\ last (requests (trace (final r))) =
       Some (ChannelSend dmChannel
               (Text "The confirmation interaction failed or timed out. Please try the transaction again.")).
Proof. vm_compute. repeat split; reflexivity. Qed.

(** With an amount whose product is an integer, the same conversation calls
    [sendKaspa] once, with that integer. *)
Example send_of_1_5_is_sent_once :
  let r := run atCall (scripted (sendScript "kaspa:bob" "1.5" "confirm_send")) 40
             (start (sendKaspaPrompt dmChannel alice) readyWorld) in
  sendKaspaCalls (trace (final r)) = [(alice, 150000000, "kaspa:bob", "Mainnet")].
Proof. vm_compute. reflexivity. Qed.

(** ** The command handler and the network selection *)

Section Dispatch.
Context `{Lib}.


(** A command of a user with no recorded state is handled as IDLE: the only
    routine the handler can come to call is the network selection, right
    after the welcome of the IDLE case, and it does call it when nothing
    stands in the way; the maps are not written. *)
Lemma idle_command env message w :
  userWalletStates w !! author message = None ->
  let r := run atCall env 10 (start (handleWalletCommand message) w) in
  world (final r) = w
  /\ (forall st', r = Stopped st' ->
        exists ch,
          prog st' = Call (PromptNetworkSelection ch (author message)) End
          /\ last (requests (trace st')) = Some (ChannelSend ch (Text welcomeText)))
  /\ (forallb unhindered (trace (final r)) = true -> exists st', r = Stopped st').
Proof.
  intros Hs r. revert r.
  remember (run atCall env 10 (start (handleWalletCommand message) w)) as r0 eqn:Hr.
  revert Hr.
  assert (Hin : bool_decide (default IDLE None ∈ [SENDING_KASPA; IMPORTING_WALLET]) = false).
  { apply bool_decide_eq_false_2. simpl. rewrite !elem_of_cons, elem_of_nil.
    intros [?|[?|[]]]; discriminate. }
  unfold start, handleWalletCommand.
  repeat (simpl; first [ rewrite Hs, Hin | split_prog ]); simpl.
  all: intros ->; simpl; split; [reflexivity|]; split.
  all: try (intros Hx; discriminate Hx).
  all: try (intros st' Hst; simplify_eq; simpl; eexists; split; reflexivity).
  all: intros _; eexists; reflexivity.
Qed.

(** C6 (amended). When the network-selection wait ends without a press (a
    timeout or any failure of the wait), [promptNetworkSelection] reports
    NETWORK_SELECTION_TIMEOUT, deletes the user's entry of
    [userWalletStates], leaves [userSettings] as it is and returns.  A
    command of that user handled on the maps as they then are is handled from
    IDLE: it writes neither map and the only routine it can come to call is
    the network selection, right after the welcome, which it does call when
    nothing stands in the way.  (Nothing is said of later moments: the entry
    is absent until some flow writes it again.) *)
Theorem network_timeout_discards_state env ch u w :
  let r := run atCall env 20 (start (promptNetworkSelection ch u) w) in
  existsb (unanswered networkIds) (trace (final r)) = true ->
  r = Returned (final r)
  /\ userWalletStates (world (final r)) = delete u (userWalletStates w)
  /\ userSettings (world (final r)) = userSettings w
  /\ codeOf <$> reported (trace (final r)) = [Some "NETWORK_SELECTION_TIMEOUT"]
  /\ (forall env' message,
        author message = u ->
        let r' := run atCall env' 10 (start (handleWalletCommand message) (world (final r))) in
        world (final r') = world (final r)
        /\ (forall st', r' = Stopped st' ->
              exists ch',
                prog st' = Call (PromptNetworkSelection ch' u) End
                /\ last (requests (trace st')) = Some (ChannelSend ch' (Text welcomeText)))
        /\ (forallb unhindered (trace (final r')) = true -> exists st', r' = Stopped st')).
Proof.
  intros r. revert r.
  remember (run atCall env 20 (start (promptNetworkSelection ch u) w)) as r0 eqn:Hr.
  revert Hr. unfold start, promptNetworkSelection, rateLimited, deleteQuietly.
  symbolic.
  all: intros ->; unfold networkIds; simpl; try discriminate.
  all: intros _; do 4 (split; [reflexivity|]).
  all: intros env' message <-; apply idle_command.
  all: simpl; apply lookup_delete_eq.
Qed.

(** What the filter of a component wait lets through. *)
Lemma accepts_component m ids u time i :
  accepts (AwaitMessageComponent m ids u time) i = true <-> customId i ∈ ids /\ user i = u.
Proof.
  simpl. rewrite andb_true_iff, bool_decide_eq_true, String.eqb_eq. reflexivity.
Qed.

(** C7 (amended). For a user with no recorded state, a command is handled as
    IDLE, the default of an absent entry: no entry is created and neither map
    is written while the handler brings up the prompt (the state is not set
    to NETWORK_SELECTION).  When nothing stands in the way (every delivery
    goes through and the rate limiter allows), the handler comes to wait, for
    300 seconds, on the network-selection prompt it has just sent after the
    welcome, in the DM channel; the prompt's single row offers exactly
    Mainnet, Testnet-10 and Testnet-11, and the wait accepts a press of one
    of these three by that user and nothing else. *)
Theorem trigger_shows_network_prompt env message w :
  userWalletStates w !! author message = None ->
  let r := run atWait env 20 (start (handleWalletCommand message) w) in
  let u := author message in
  userWalletStates (world (final r)) !! u = None
  /\ userSettings (world (final r)) = userSettings w
  /\ (forallb unhindered (trace (final r)) = true -> exists st', r = Stopped st')
  /\ (forall st', r = Stopped st' ->
        world st' = w
        /\ exists ch m onReject k,
             chType ch = DM
             /\ prog st' = Await (AwaitMessageComponent m networkIds u 300000) onReject k
             /\ requests (trace st') =
                  (match chType (channel message) with
                   | DM => []
                   | GuildText => [CreateDM u; Reply dmNotice]
                   end ++ [ChannelSend ch (Text welcomeText); ChannelSend ch networkPrompt])%list)
  /\ (exists embed, networkPrompt = Rich embed [networkRow])
  /\ buttonId <$> networkRow = ["Mainnet"; "Testnet-10"; "Testnet-11"]
  /\ (forall m i,
        accepts (AwaitMessageComponent m networkIds u 300000) i = true
        <-> customId i ∈ ["Mainnet"; "Testnet-10"; "Testnet-11"] /\ user i = u).
Proof.
  intros Hs r. revert r.
  remember (run atWait env 20 (start (handleWalletCommand message) w)) as r0 eqn:Hr.
  revert Hr.
  assert (Hin : bool_decide (default IDLE None ∈ [SENDING_KASPA; IMPORTING_WALLET]) = false).
  { apply bool_decide_eq_false_2. simpl. rewrite !elem_of_cons, elem_of_nil.
    intros [?|[?|[]]]; discriminate. }
  unfold start, handleWalletCommand, promptNetworkSelection, rateLimited.
  repeat (simpl; first [ rewrite Hs, Hin | split_prog ]); simpl.
  all: intros ->; simpl; unnegb.
  all: split; [first [assumption | apply lookup_delete_eq]|].
  all: split; [reflexivity|].
  all: split;
    [| split;
       [| split; [eexists; reflexivity|]; split; [reflexivity|];
          intros m i; apply (accepts_component m networkIds _ 300000 i)]].
  all: try (intros st' Hst; discriminate Hst).
  all: try (intros st' Hst; simplify_eq; simpl; split; [reflexivity|];
            match goal with
            | Hc : chType ?c = DM |- _ =>
                exists c; do 3 eexists;
                split; [exact Hc|]; split; reflexivity
            | |- _ => do 4 eexists; split; [|split]; [| reflexivity | reflexivity]; reflexivity
            end).
  all: try (intros _; eexists; reflexivity).
  all: intros Hx; exfalso;
    repeat match goal with
    | Hb : tell _ _ _ = _ |- _ => rewrite Hb in Hx
    end; simpl in Hx; discriminate Hx.
Qed.

(** Without a recorded address, a balance request fails the address check:
    nothing is asked of [getBalance]. *)
Lemma checkBalance_without_address env ch u w :
  from_option (fun s => truthy (address s)) false (userSettings w !! u) = false ->
  exists st',
    run atCall env 20 (start (checkBalance ch u) w) = Returned st'
    /\ world st' = w
    /\ existsb isGetBalance (requests (trace st')) = false
    /\ (tell env 0 (CheckRateLimit u "checkBalance") = true ->
         codeOf <$> reported (trace st') = [Some "INVALID_WALLET"]).
Proof.
  unfold start, checkBalance, rateLimited, buildEmbed.
  symbolic.
  all: unnegb; intros Haddr; try discriminate Haddr.
  all: eexists; split; [reflexivity|]; split; [reflexivity|]; split; [reflexivity|].
  all: simpl; intros Hrate; first [reflexivity | congruence].
Qed.

(** Likewise for the transaction history. *)
Lemma showTransactionHistory_without_address env ch u w :
  from_option (fun s => truthy (address s)) false (userSettings w !! u) = false ->
  exists st',
    run atCall env 20 (start (showTransactionHistory ch u) w) = Returned st'
    /\ world st' = w
    /\ existsb isRetryableRequest (requests (trace st')) = false
    /\ (tell env 0 (CheckRateLimit u "showTransactionHistory") = true ->
         codeOf <$> reported (trace st') = [Some "INVALID_WALLET"]).
Proof.
  unfold start, showTransactionHistory, rateLimited, getTransactionHistory.
  symbolic.
  all: unnegb; intros Haddr.
  all: try (apply andb_true_iff in Heqb0 as [? ?]; congruence).
  all: try (apply andb_true_iff in Heqb as [? ?]; congruence).
  all: eexists; split; [reflexivity|]; split; [reflexivity|]; split; [reflexivity|].
  all: simpl; intros Hrate; first [reflexivity | congruence].
Qed.

(** A wait that resolved did so with something its filter accepts. *)
Lemma settle_inr q r v : settle q r = inr v -> accepts q v = true.
Proof.
  unfold settle. destruct r as [e|a]; [discriminate|].
  destruct (accepts q a) eqn:E; intros [= <-]. exact E.
Qed.

(** What [promptNetworkSelection] has done when it hands over to the wallet
    options: the network stored and handed over is the one of the button
    pressed, the time stored is the one reading of the clock. *)
Lemma promptNetworkSelection_handover env ch u w st' :
  run atCall env 20 (start (promptNetworkSelection ch u) w) = Stopped st' ->
  exists selected now,
    omap (pressed networkIds) (trace st') = [selected]
    /\ clockReadings (trace st') = [now]
    /\ selected ∈ networkIds
    /\ validateNetwork selected = true
    /\ prog st' = Call (PromptWalletOptions ch u selected) End
    /\ userSettings (world st') = <[u := mkSession (Some selected) None now]> (userSettings w)
    /\ userWalletStates (world st') = <[u := WALLET_OPTIONS]> (userWalletStates w).
Proof.
  unfold start, promptNetworkSelection, rateLimited, deleteQuietly.
  symbolic.
  all: intros Hst; try discriminate Hst.
  all: injection Hst as <-; simpl.
  all: unnegb.
  all: match goal with
       | Hx : settle (AwaitMessageComponent _ _ _ _) _ = inr ?i |- _ =>
           exists (customId i); apply settle_inr, accepts_component in Hx as [Hacc _]
       end.
  all: eexists; split; [reflexivity|]; split; [reflexivity|]; split; [exact Hacc|].
  all: split; [assumption|]; repeat split.
Qed.

(** The selection goes through when nothing stands in its way. *)
Lemma promptNetworkSelection_completes env ch u w message interaction :
  tell env 0 (CheckRateLimit u "networkSelection") = true ->
  reply env 1 (ChannelSend ch networkPrompt) = inr message ->
  reply env 2 (AwaitMessageComponent message networkIds u 300000) = inr interaction ->
  customId interaction ∈ networkIds -> user interaction = u ->
  (exists ok, reply env 3 (DeferUpdate interaction) = inr ok) ->
  validateNetwork (customId interaction) = true ->
  (exists sent,
     reply env 6 (ChannelSend ch (Text ("You've selected " ++ customId interaction
                                          ++ ". Let's set up your wallet."))) = inr sent) ->
  exists st',
    run atCall env 20 (start (promptNetworkSelection ch u) w) = Stopped st'
    /\ prog st' = Call (PromptWalletOptions ch u (customId interaction)) End
    /\ userSettings (world st')
       = <[u := mkSession (Some (customId interaction)) None (tell env 4 DateNow)]>
           (userSettings w).
Proof.
  intros Hallowed Hprompt Hwait Hid Huser [ok Hdefer] Hvalid [sent Hsent].
  assert (Hacc : accepts (AwaitMessageComponent message networkIds u 300000) interaction = true)
    by (apply accepts_component; split; assumption).
  unfold start, promptNetworkSelection, rateLimited, deleteQuietly. simpl.
  rewrite Hallowed. simpl. rewrite Hprompt. simpl.
  unfold settle at 1. rewrite Hwait, Hacc. simpl. rewrite Hdefer. simpl.
  rewrite Hvalid. simpl.
  destruct (reply env 5 (MessageDelete message)); simpl; rewrite Hsent; simpl;
    eexists; repeat split; reflexivity.
Qed.

(** C9. The network selection goes through when nothing stands in its way:
    with the rate limiter allowing, the prompt delivered, one of the three
    buttons pressed by the user and acknowledged, the network accepted by
    [validateNetwork] and the confirmation delivered, it comes to call the
    wallet options for the network of the button pressed, and the user's
    entry of [userSettings] is then that network, no address, and the time
    the clock gave at line 121.  And whenever it hands over to the wallet
    options, the network stored and handed over is the one pressed, as the
    trace has it, the time stored is the one reading of the clock, the state
    is WALLET_OPTIONS, whatever the entry held before (an address recorded by
    an earlier creation or import) is gone, and a balance or history request
    on that session fails the address check before it asks for anything. *)
Theorem network_choice_replaces_session env ch u w :
  let r := run atCall env 20 (start (promptNetworkSelection ch u) w) in
  (forall message interaction,
      tell env 0 (CheckRateLimit u "networkSelection") = true ->
      reply env 1 (ChannelSend ch networkPrompt) = inr message ->
      reply env 2 (AwaitMessageComponent message networkIds u 300000) = inr interaction ->
      customId interaction ∈ networkIds -> user interaction = u ->
      (exists ok, reply env 3 (DeferUpdate interaction) = inr ok) ->
      validateNetwork (customId interaction) = true ->
      (exists sent,
         reply env 6 (ChannelSend ch (Text ("You've selected " ++ customId interaction
                                              ++ ". Let's set up your wallet."))) = inr sent) ->
      exists st',
        r = Stopped st'
        /\ prog st' = Call (PromptWalletOptions ch u (customId interaction)) End
        /\ userSettings (world st')
           = <[u := mkSession (Some (customId interaction)) None (tell env 4 DateNow)]>
               (userSettings w))
  /\ (forall st',
        r = Stopped st' ->
        exists selected now,
          omap (pressed networkIds) (trace st') = [selected]
          /\ clockReadings (trace st') = [now]
          /\ selected ∈ networkIds
          /\ prog st' = Call (PromptWalletOptions ch u selected) End
          /\ userSettings (world st')
             = <[u := mkSession (Some selected) None now]> (userSettings w)
          /\ userWalletStates (world st') = <[u := WALLET_OPTIONS]> (userWalletStates w)
          /\ (forall env' ch',
                exists st2,
                  run atCall env' 20 (start (checkBalance ch' u) (world st')) = Returned st2
                  /\ world st2 = world st'
                  /\ existsb isGetBalance (requests (trace st2)) = false
                  /\ (tell env' 0 (CheckRateLimit u "checkBalance") = true ->
                       codeOf <$> reported (trace st2) = [Some "INVALID_WALLET"]))
          /\ (forall env' ch',
                exists st2,
                  run atCall env' 20 (start (showTransactionHistory ch' u) (world st'))
                  = Returned st2
                  /\ world st2 = world st'
                  /\ existsb isRetryableRequest (requests (trace st2)) = false
                  /\ (tell env' 0 (CheckRateLimit u "showTransactionHistory") = true ->
                       codeOf <$> reported (trace st2) = [Some "INVALID_WALLET"]))).
Proof.
  intros r. split.
  - intros message interaction. apply promptNetworkSelection_completes.
  - intros st' Hrun.
    destruct (promptNetworkSelection_handover env ch u w st' Hrun)
      as (selected & now & Hpress & Hclock & Hsel & _ & Hprog & Hset & Hst).
    exists selected, now. repeat (split; [assumption|]).
    split; intros env' ch'.
    + apply checkBalance_without_address. rewrite Hset, lookup_insert_eq. reflexivity.
    + apply showTransactionHistory_without_address. rewrite Hset, lookup_insert_eq. reflexivity.
Qed.

End Dispatch.

(** ** Properties of every node, along every run *)

Section Nodes.
Context `{Lib}.

(** The equation of [run]. *)
Lemma run_eq stop env fuel st :
  run stop env fuel st =
  if stop st then Stopped st
  else match fuel with
       | O => OutOfFuel st
       | S fuel' =>
           match step env st with
           | Some st' => run stop env fuel' st'
           | None => match prog st with
                     | Throw e => Uncaught e st
                     | _ => Returned st
                     end
           end
       end.
Proof. destruct fuel; reflexivity. Qed.

(** What every step preserves holds at the end of a run, however it ends. *)
Lemma run_preserves (I : MState -> Prop) env :
  (forall st st', I st -> step env st = Some st' -> I st') ->
  forall stop fuel st, I st -> I (final (run stop env fuel st)).
Proof.
  intros Hstep stop fuel. induction fuel as [|fuel IH]; intros st Hst.
  - rewrite run_eq. destruct (stop st); exact Hst.
  - rewrite run_eq. destruct (stop st); [exact Hst|].
    destruct (step env st) as [st'|] eqn:E.
    + apply IH. eapply Hstep; eassumption.
    + destruct (prog st); exact Hst.
Qed.

(** A property of every node is kept by a step, provided the body of a
    routine has it whenever its call does. *)
Lemma step_everywhere (P : Node -> Prop) env st st' :
  (forall f, P (NCall f) -> every P (body f)) ->
  everywhere P st -> step env st = Some st' -> everywhere P st'.
Proof.
  intros Hbody (Hp & Hstk & Htr) Hstep.
  destruct st as [p stk w tr]. unfold step in Hstep. simpl in *.
  assert (Hcons : forall fr rest, everyFrame P fr -> Forall (everyFrame P) rest ->
                                 Forall (everyFrame P) (fr :: rest))
    by (intros; apply Forall_cons; split; assumption).
  assert (Hev : forall ev, everyEvent P ev -> Forall (everyEvent P) (ev :: tr))
    by (intros; apply Forall_cons; split; assumption).
  destruct p; simpl in *.
  - destruct stk as [|[k|h|fin|e] rest]; simplify_eq;
      apply Forall_cons in Hstk as [Hfr Hrest]; repeat split; simpl; auto.
  - destruct stk as [|[k|h|fin|e'] rest]; simplify_eq;
      apply Forall_cons in Hstk as [Hfr Hrest]; repeat split; simpl; auto.
  - destruct Hp as (Hq & Hrej & Hk). simplify_eq.
    repeat split; simpl; auto.
    unfold settle. destruct (reply env (length tr) q) as [e|v]; [apply Hrej|].
    destruct (accepts q v) eqn:Ha; [apply Hk; exact Ha | apply Hrej].
  - destruct Hp as (Hq & Hk). simplify_eq. repeat split; simpl; auto.
  - simplify_eq. repeat split; simpl; auto.
  - destruct Hp as (_ & Hk). simplify_eq. repeat split; simpl; auto.
  - destruct Hp as (_ & Hk). simplify_eq. repeat split; simpl; auto.
  - simplify_eq. repeat split; simpl; auto.
  - destruct Hp as (_ & Hk). simplify_eq. repeat split; simpl; auto.
  - destruct Hp as (Hf & Hk). simplify_eq. repeat split; simpl; auto.
  - destruct Hp as (Hb & Hh & Hk). simplify_eq. repeat split; simpl; auto.
  - destruct Hp as (Hb & Hh & Hfin & Hk). simplify_eq. repeat split; simpl; auto 6.
Qed.

Lemma every_deleteEach (P : Node -> Prop) messages k :
  (forall m, P (NReq (MessageDelete m))) -> every P k -> every P (deleteEach messages k).
Proof.
  intros Hdel Hk. induction messages as [|m rest IH]; simpl; auto.
Qed.

End Nodes.

Ltac check_every :=
  repeat first
    [ match goal with Hvalid : validEmbed _ = _ |- _ => clear Hvalid end
    | progress (simpl; intros)
    | apply every_deleteEach
    | split
    | case_match ];
  try done.

Section Deadlines.
Context `{Lib}.

Lemma body_deadlines f : every (onRequests deadlineRule) (body f).
Proof.
  destruct f; unfold body;
    unfold promptNetworkSelection, promptWalletOptions, createNewWallet, importExistingWallet,
      promptWalletActions, sendKaspaPrompt, checkBalance, showTransactionHistory,
      showHelpMessage, clearChatHistory, rateLimited, deleteQuietly, recordWallet,
      getTransactionHistory, buildEmbed.
  all: check_every.
Qed.

Lemma handleWalletCommand_deadlines message :
  every (onRequests deadlineRule) (handleWalletCommand message).
Proof. unfold handleWalletCommand. check_every. Qed.

Lemma requests_Forall (R : Req -> Prop) tr :
  Forall (everyEvent (onRequests R)) tr -> Forall R (requests tr).
Proof.
  intros Htr. unfold requests. apply Forall_rev in Htr.
  induction Htr as [|ev evs Hev _ IH]; simpl; [constructor|].
  destruct ev; simpl in *; [constructor; assumption | assumption].
Qed.

(** C8 (amended). Every wait for a text (recipient address, amount, private
    key) uses a 60-second deadline, and so does the wait for the confirmation
    buttons of the send flow; every other wait for a button (network
    selection, wallet options, wallet actions) uses a 300-second deadline.
    This holds of every routine as written and of every request made in any
    run of the command handler. *)
Theorem waits_use_the_source_deadlines :
  (forall f, every (onRequests deadlineRule) (body f))
  /\ (forall message, every (onRequests deadlineRule) (handleWalletCommand message))
  /\ (forall env stop fuel message w,
        Forall deadlineRule
          (requests (trace (final (run stop env fuel (start (handleWalletCommand message) w)))))).
Proof.
  split; [exact body_deadlines|]. split; [exact handleWalletCommand_deadlines|].
  intros env stop fuel message w.
  apply requests_Forall.
  apply (run_preserves (everywhere (onRequests deadlineRule)) env).
  - intros st st'. apply step_everywhere. intros f _. apply body_deadlines.
  - repeat split; simpl; auto using handleWalletCommand_deadlines.
Qed.

End Deadlines.

(** The confirmation buttons of the send flow are awaited for 60 seconds, not
    300. *)
Lemma confirmation_wait_is_60_seconds :
  ~ (forall (L : Lib) env stop fuel message w,
       Forall uniformDeadlineRule
         (requests (trace (final (run stop env fuel (start (handleWalletCommand message) w)))))).
Proof.
  intros Hc.
  pose proof (Hc sampleLib (scripted menuSendScript) toEnd 200%nat dmCommand readyWorld) as Hf.
  rewrite Forall_forall in Hf.
  specialize (Hf (AwaitMessageComponent 0 confirmIds alice 60000)).
  assert (Hin : AwaitMessageComponent 0 confirmIds alice 60000
                ∈ requests (trace (final (run toEnd (scripted menuSendScript) 200 
                                (start (handleWalletCommand dmCommand) readyWorld))))).
  { vm_compute. repeat constructor. }
  specialize (Hf Hin). simpl in Hf. discriminate Hf.
Qed.


(** ** Runs of the routines that call nothing *)

Section Quiet.
Context `{Lib}.

Lemma runs_trans env a b c : runs env a b -> runs env b c -> runs env a c.
Proof.
  induction 1 as [|st st' st'' Hstep _ IH]; [auto|].
  intros Hc. eapply runs_step; [exact Hstep | auto].
Qed.

Lemma runs_one env a b : step env a = Some b -> runs env a b.
Proof. intros Hstep. eapply runs_step; [exact Hstep | apply runs_here]. Qed.

(** What a step does to the maps. *)
Lemma step_world env st st' :
  step env st = Some st' ->
  world st' = world st
  \/ (exists u s k, prog st = StatesSet u s k /\ world st' = setState u s (world st))
  \/ (exists u k, prog st = StatesDelete u k /\ world st' = deleteState u (world st))
  \/ (exists u s k, prog st = SettingsSet u s k /\ world st' = setSession u s (world st)).
Proof.
  destruct st as [p stk w tr]. unfold step. simpl.
  destruct p; try (destruct stk as [|[k0|h0|fin0|e0] rest]); intros Hstep; simplify_eq; simpl;
    eauto 10.
Qed.

Lemma step_quiet env st st' :
  every quietNode (prog st) -> step env st = Some st' ->
  userWalletStates (world st') = userWalletStates (world st).
Proof.
  intros Hq Hstep.
  destruct (step_world env st st' Hstep)
    as [-> | [(u & s & k & Hp & _) | [(u & k & Hp & _) | (u & s & k & Hp & ->)]]];
    try reflexivity; rewrite Hp in Hq; simpl in Hq; tauto.
Qed.

(** A program with quiet nodes only runs to the end of its block, or to an
    error thrown out of it, without writing [userWalletStates]; to the end
    when it is [contained]. *)
Lemma quiet_runs p :
  every quietNode p ->
  forall env stk w tr,
    exists st',
      runs env (mkState p stk w tr) st'
      /\ stack st' = stk
      /\ userWalletStates (world st') = userWalletStates w
      /\ (prog st' = End \/ exists e, prog st' = Throw e)
      /\ (contained p -> prog st' = End).
Proof.
  induction p as [ | e | q onReject IHr k IHk | q k IHk | u k IHk | u s k IHk | u k IHk
                 | u k IHk | u s k IHk | f k IHk | b IHb handler IHh k IHk
                 | b IHb handler IHh fin IHfin k IHk ];
    simpl; intros Hq env stk w tr.
  - eexists; split; [apply runs_here|]; simpl; auto.
  - eexists; split; [apply runs_here|]; simpl; repeat split; eauto. tauto.
  - destruct Hq as (_ & Hrej & Hacc).
    destruct (settle q (reply env (length tr) q)) as [e|v] eqn:Es.
    + destruct (IHr e (Hrej e) env stk w (EvReq q (inl e) :: tr))
        as (st' & Hruns & Hstk & Hw & Hend & Hc).
      exists st'. split.
      { eapply runs_step; [|exact Hruns]. unfold step; simpl. rewrite Es. reflexivity. }
      repeat split; auto. intros [Hcr _]. auto.
    + pose proof (settle_inr _ _ _ Es) as Ha.
      destruct (IHk v (Hacc v Ha) env stk w (EvReq q (inr v) :: tr))
        as (st' & Hruns & Hstk & Hw & Hend & Hc).
      exists st'. split.
      { eapply runs_step; [|exact Hruns]. unfold step; simpl. rewrite Es. reflexivity. }
      repeat split; auto. intros [_ Hck]. auto.
  - destruct Hq as (_ & Hk).
    destruct (IHk _ (Hk (tell env (length tr) q)) env stk w
                (EvAsk q (tell env (length tr) q) :: tr))
      as (st' & Hruns & Hstk & Hw & Hend & Hc).
    exists st'. split; [eapply runs_step; [reflexivity | exact Hruns]|].
    repeat split; auto.
  - destruct (IHk _ (Hq (userWalletStates w !! u)) env stk w tr)
      as (st' & Hruns & Hstk & Hw & Hend & Hc).
    exists st'. split; [eapply runs_step; [reflexivity | exact Hruns]|].
    repeat split; auto.
  - tauto.
  - tauto.
  - destruct (IHk _ (Hq (userSettings w !! u)) env stk w tr)
      as (st' & Hruns & Hstk & Hw & Hend & Hc).
    exists st'. split; [eapply runs_step; [reflexivity | exact Hruns]|].
    repeat split; auto.
  - destruct Hq as (_ & Hk).
    destruct (IHk Hk env stk (setSession u s w) tr)
      as (st' & Hruns & Hstk & Hw & Hend & Hc).
    exists st'. split; [eapply runs_step; [reflexivity | exact Hruns]|].
    repeat split; auto.
  - tauto.
  - destruct Hq as (Hb & Hh & Hk).
    destruct (IHb Hb env (KCatch handler :: KSeq k :: stk) w tr)
      as ([p1 stk1 w1 tr1] & Hruns0 & Hstk1 & Hw1 & Hend1 & _).
    simpl in *. subst stk1.
    pose proof (runs_step env (mkState (Try b handler k) stk w tr) _ _ eq_refl Hruns0)
      as Hruns1.
    clear Hruns0.
    assert (Hafter : forall w2 tr2, userWalletStates w2 = userWalletStates w ->
              exists st', runs env (mkState End (KSeq k :: stk) w2 tr2) st'
                /\ stack st' = stk /\ userWalletStates (world st') = userWalletStates w
                /\ (prog st' = End \/ exists e, prog st' = Throw e)
                /\ (contained k -> prog st' = End)).
    { intros w2 tr2 Hw2.
      destruct (IHk Hk env stk w2 tr2) as (st' & Hruns & Hstk & Hw & Hend & Hc).
      exists st'. split; [eapply runs_step; [reflexivity | exact Hruns]|].
      repeat split; auto. congruence. }
    destruct Hend1 as [-> | [e ->]].
    + destruct (Hafter w1 tr1 Hw1) as (st' & Hruns & Hstk & Hw & Hend & Hc).
      exists st'. split.
      { eapply runs_trans; [exact Hruns1|].
        eapply runs_step; [reflexivity | exact Hruns]. }
      repeat split; auto. intros [_ Hck]. auto.
    + destruct (IHh e (Hh e) env (KSeq k :: stk) w1 tr1)
        as ([p2 stk2 w2 tr2] & Hruns2 & Hstk2 & Hw2 & Hend2 & Hc2).
      simpl in *. subst stk2.
      destruct Hend2 as [-> | [e' ->]].
      * destruct (Hafter w2 tr2 ltac:(congruence)) as (st' & Hruns & Hstk & Hw & Hend & Hc).
        exists st'. split.
        { eapply runs_trans; [exact Hruns1|].
          eapply runs_step; [reflexivity|].
          eapply runs_trans; [exact Hruns2 | exact Hruns]. }
        repeat split; auto. intros [_ Hck]. auto.
      * exists (mkState (Throw e') stk w2 tr2). split.
        { eapply runs_trans; [exact Hruns1|].
          eapply runs_step; [reflexivity|].
          eapply runs_trans; [exact Hruns2 | apply runs_one; reflexivity]. }
        simpl; repeat split; eauto; try congruence;
          try (intros [Hch _]; specialize (Hc2 (Hch e)); discriminate Hc2).
  - destruct Hq as (Hb & Hh & Hfin & Hk).
    destruct (IHb Hb env (KCatch handler :: KFinally fin :: KSeq k :: stk) w tr)
      as ([p1 stk1 w1 tr1] & Hruns0 & Hstk1 & Hw1 & Hend1 & _).
    simpl in *. subst stk1.
    pose proof (runs_step env (mkState (TryFinally b handler fin k) stk w tr) _ _ eq_refl Hruns0)
      as Hruns1.
    clear Hruns0.
    (* the [finally] block, then the rest, when nothing is to be rethrown *)
    assert (Hafter : forall w2 tr2, userWalletStates w2 = userWalletStates w ->
              exists st', runs env (mkState End (KFinally fin :: KSeq k :: stk) w2 tr2) st'
                /\ stack st' = stk /\ userWalletStates (world st') = userWalletStates w
                /\ (prog st' = End \/ exists e, prog st' = Throw e)
                /\ (contained fin -> contained k -> prog st' = End)).
    { intros w2 tr2 Hw2.
      destruct (IHfin Hfin env (KSeq k :: stk) w2 tr2)
        as ([p3 stk3 w3 tr3] & Hruns3 & Hstk3 & Hw3 & Hend3 & Hc3).
      simpl in *. subst stk3.
      destruct Hend3 as [-> | [e3 ->]].
      - destruct (IHk Hk env stk w3 tr3) as (st' & Hruns & Hstk & Hw & Hend & Hc).
        exists st'. split.
        { eapply runs_step; [reflexivity|].
          eapply runs_trans; [exact Hruns3|].
          eapply runs_step; [reflexivity | exact Hruns]. }
        repeat split; auto. congruence.
      - exists (mkState (Throw e3) stk w3 tr3). split.
        { eapply runs_step; [reflexivity|].
          eapply runs_trans; [exact Hruns3 | apply runs_one; reflexivity]. }
        simpl; repeat split; eauto; try congruence;
          try (intros Hcf _; specialize (Hc3 Hcf); discriminate Hc3). }
    destruct Hend1 as [-> | [e ->]].
    + destruct (Hafter w1 tr1 Hw1) as (st' & Hruns & Hstk & Hw & Hend & Hc).
      exists st'. split.
      { eapply runs_trans; [exact Hruns1|].
        eapply runs_step; [reflexivity | exact Hruns]. }
      repeat split; auto. intros (_ & Hcf & Hck). auto.
    + destruct (IHh e (Hh e) env (KFinally fin :: KSeq k :: stk) w1 tr1)
        as ([p2 stk2 w2 tr2] & Hruns2 & Hstk2 & Hw2 & Hend2 & Hc2).
      simpl in *. subst stk2.
      destruct Hend2 as [-> | [e' ->]].
      * destruct (Hafter w2 tr2 ltac:(congruence)) as (st' & Hruns & Hstk & Hw & Hend & Hc).
        exists st'. split.
        { eapply runs_trans; [exact Hruns1|].
          eapply runs_step; [reflexivity|].
          eapply runs_trans; [exact Hruns2 | exact Hruns]. }
        repeat split; auto. intros (_ & Hcf & Hck). auto.
      * (* the handler throws: the [finally] block runs, then the error goes on *)
        destruct (IHfin Hfin env (KRethrow e' :: KSeq k :: stk) w2 tr2)
          as ([p3 stk3 w3 tr3] & Hruns3 & Hstk3 & Hw3 & Hend3 & _).
        simpl in *. subst stk3.
        assert (Hout : exists e4, runs env (mkState p3 (KRethrow e' :: KSeq k :: stk) w3 tr3)
                                    (mkState (Throw e4) stk w3 tr3)).
        { destruct Hend3 as [-> | [e3 ->]].
          - exists e'. eapply runs_step; [reflexivity|]. apply runs_one. reflexivity.
          - exists e3. eapply runs_step; [reflexivity|]. apply runs_one. reflexivity. }
        destruct Hout as (e4 & Hruns4).
        exists (mkState (Throw e4) stk w3 tr3). split.
        { eapply runs_trans; [exact Hruns1|].
          eapply runs_step; [reflexivity|].
          eapply runs_trans; [exact Hruns2|].
          eapply runs_step; [reflexivity|].
          eapply runs_trans; [exact Hruns3 | exact Hruns4]. }
        simpl; repeat split; eauto; try congruence;
          try (intros (Hch & _); specialize (Hc2 (Hch e)); discriminate Hc2).
Qed.

(** A run of the machine that reaches a final state is a run to the end. *)
Lemma runs_toEnd env st st' :
  runs env st st' -> step env st' = None ->
  exists fuel,
    run toEnd env fuel st =
    match prog st' with
    | Throw e => Uncaught e st'
    | _ => Returned st'
    end.
Proof.
  induction 1 as [st | st st1 st2 Hstep _ IH]; intros Hfinal.
  - exists 1%nat. rewrite run_eq. unfold toEnd. rewrite Hfinal. reflexivity.
  - destruct (IH Hfinal) as (fuel & Hrun).
    exists (S fuel). rewrite run_eq. unfold toEnd at 1. rewrite Hstep. exact Hrun.
Qed.

Lemma viewAction_quiet f : isViewAction f = true -> every quietNode (body f).
Proof.
  destruct f; try discriminate; intros _; unfold body;
    unfold checkBalance, showTransactionHistory, showHelpMessage, clearChatHistory,
      rateLimited, getTransactionHistory, buildEmbed.
  all: check_every.
Qed.

Lemma viewAction_contained f : isViewAction f = true -> contained (body f).
Proof.
  destruct f; try discriminate; intros _; simpl; auto.
Qed.

(** The four view actions return, and never write [userWalletStates]. *)
Lemma viewAction_run f :
  isViewAction f = true ->
  (forall env w, exists fuel st',
      run toEnd env fuel (start (body f) w) = Returned st'
      /\ userWalletStates (world st') = userWalletStates w)
  /\ (forall env stop fuel w,
        userWalletStates (world (final (run stop env fuel (start (body f) w))))
        = userWalletStates w).
Proof.
  intros Hf. split.
  - intros env w.
    destruct (quiet_runs (body f) (viewAction_quiet f Hf) env [] w [])
      as ([p' stk' w' tr'] & Hruns & Hstk & Hw & _ & Hc).
    simpl in *. subst stk'. rewrite (Hc (viewAction_contained f Hf)) in Hruns.
    destruct (runs_toEnd env _ _ Hruns eq_refl) as (fuel & Hrun).
    exists fuel. eexists. split; [exact Hrun | exact Hw].
  - intros env stop fuel w.
    apply (run_preserves
             (fun st => everywhere quietNode st
                        /\ userWalletStates (world st) = userWalletStates w) env).
    + intros st st' [Hev Hw] Hstep. split.
      * eapply step_everywhere; [|exact Hev|exact Hstep]. intros g [].
      * rewrite <- Hw. apply (step_quiet env); [apply Hev | exact Hstep].
    + split; [|reflexivity]. repeat split; simpl; auto using viewAction_quiet.
Qed.

(** At every point of a run of a view action, what is left to do has quiet
    nodes only. *)
Lemma viewAction_everywhere f env stop fuel w :
  isViewAction f = true ->
  everywhere quietNode (final (run stop env fuel (start (body f) w))).
Proof.
  intros Hf.
  apply (run_preserves (everywhere quietNode) env).
  - intros st st' Hev Hstep.
    eapply step_everywhere; [|exact Hev|exact Hstep]. intros g [].
  - repeat split; simpl; auto using viewAction_quiet.
Qed.

(** A step of a view action leaves [userWalletStates] as it finds it,
    whatever other flows have made of the maps in the meantime. *)
Lemma viewAction_step f env stop fuel w :
  isViewAction f = true ->
  let st := final (run stop env fuel (start (body f) w)) in
  forall env' w' tr' st',
    step env' (mkState (prog st) (stack st) w' tr') = Some st' ->
    userWalletStates (world st') = userWalletStates w'.
Proof.
  intros Hf st env' w' tr' st' Hstep.
  destruct (viewAction_everywhere f env stop fuel w Hf) as [Hp _].
  apply (step_quiet env' (mkState (prog st) (stack st) w' tr') st'); [exact Hp | exact Hstep].
Qed.

(** The menu calls a view action with the maps as they were when it was
    opened. *)
Lemma menu_calls_view_action env ch u w st f k :
  run atCall env 20 (start (promptWalletActions ch u) w) = Stopped st ->
  prog st = Call f k -> isViewAction f = true -> world st = w.
Proof.
  unfold start, promptWalletActions, rateLimited.
  symbolic.
  all: intros Hst; try discriminate Hst.
  all: injection Hst as <-; simpl.
  all: intros Hp; injection Hp as <- <-; simpl.
  all: intros Hv; first [discriminate Hv | reflexivity].
Qed.

End Quiet.

(** ** Invariants of the process *)

Section Process.
Context `{Lib}.

(** An invariant of the maps [I], kept by every step of a flow that
    satisfies [T], holds in every reachable state of the process. *)
Lemma sys_invariant (I : World -> Prop) (T : World -> Prog -> list Frame -> Prop) :
  I emptyWorld ->
  (forall w message, I w -> T w (handleWalletCommand message) []) ->
  (forall env w p stk st',
     I w -> T w p stk -> step env (mkState p stk w []) = Some st' ->
     I (world st') /\ T (world st') (prog st') (stack st')
     /\ (forall p2 stk2, T w p2 stk2 -> T (world st') p2 stk2)) ->
  forall s, reachable s ->
    I (shared s) /\ Forall (fun fl => T (shared s) fl.1 fl.2) (flows s).
Proof.
  intros Hinit Hnew Hstep s Hr. unfold reachable in Hr.
  revert s Hr.
  apply (rtc_ind_r (fun s => I (shared s) /\ Forall (fun fl => T (shared s) fl.1 fl.2) (flows s))).
  - simpl. split; [exact Hinit | constructor].
  - intros y z _ Hyz [HI HT].
    inversion Hyz as [w fs message | w fs i p stk env st' Hi Hst]; subst; simpl in *.
    + split; [exact HI|]. apply Forall_app. split; [exact HT|].
      constructor; [|constructor]. simpl. auto.
    + pose proof (Forall_lookup_1 _ _ _ _ HT Hi) as Hflow. simpl in Hflow.
      destruct (Hstep env w p stk st' HI Hflow Hst) as (HI' & HT' & Hothers).
      split; [exact HI'|].
      apply Forall_insert; [|exact HT'].
      eapply Forall_impl; [exact HT|]. intros [p2 stk2]. simpl. apply Hothers.
Qed.

Lemma body_usedStates f : every assignsUsedState (body f).
Proof.
  destruct f; unfold body;
    unfold promptNetworkSelection, promptWalletOptions, createNewWallet, importExistingWallet,
      promptWalletActions, sendKaspaPrompt, checkBalance, showTransactionHistory,
      showHelpMessage, clearChatHistory, rateLimited, deleteQuietly, recordWallet,
      getTransactionHistory, buildEmbed.
  all: check_every.
Qed.

Lemma handleWalletCommand_usedStates message :
  every assignsUsedState (handleWalletCommand message).
Proof. unfold handleWalletCommand. check_every. Qed.

Lemma reachable_onlyUsedStates s : reachable s -> onlyUsedStates (shared s).
Proof.
  intros Hr.
  apply (sys_invariant onlyUsedStates
           (fun _ p stk => every assignsUsedState p
                           /\ Forall (everyFrame assignsUsedState) stk)) in Hr;
    [tauto | | |].
  - intros u. simpl. rewrite lookup_empty. split; discriminate.
  - intros w message _. split; [apply handleWalletCommand_usedStates | constructor].
  - intros env w p stk st' HI [Hp Hstk] Hst.
    assert (Hev : everywhere assignsUsedState st').
    { eapply step_everywhere; [| |exact Hst].
      - intros f _. apply body_usedStates.
      - repeat split; simpl; auto. }
    split; [|split; [split; apply Hev | auto]].
    destruct (step_world env _ _ Hst)
      as [-> | [(u & s0 & k & Hprog & ->) | [(u & k & Hprog & ->) | (u & s0 & k & Hprog & ->)]]];
      simpl in *; try exact HI.
    + subst p. destruct Hp as [[Hcb Hvh] _]. intros u'. simpl.
      destruct (decide (u = u')) as [->|Hne].
      * rewrite lookup_insert_eq. split; congruence.
      * rewrite lookup_insert_ne by exact Hne. apply HI.
    + intros u'. simpl. destruct (decide (u = u')) as [->|Hne].
      * rewrite lookup_delete_eq. split; discriminate.
      * rewrite lookup_delete_ne by exact Hne. apply HI.
Qed.

End Process.

(** ** The network is recorded before any state that needs it *)

Section NetworkInvariant.
Context `{Lib}.
#[local] Arguments truthy : simpl never.
#[local] Arguments accepts : simpl never.

Lemma networkOf_truthy found net : networkOf found = Some net -> truthy (Some net) = true.
Proof.
  destruct found as [s|]; simpl; [|discriminate].
  destruct (truthy (network s)) eqn:E; [|discriminate].
  intros Hn. rewrite Hn in E. exact E.
Qed.

Lemma accepted_network_truthy m u time i :
  accepts (AwaitMessageComponent m networkIds u time) i = true ->
  truthy (Some (customId i)) = true.
Proof.
  intros Ha. apply accepts_component in Ha as [Hin _].
  unfold networkIds in Hin. rewrite !elem_of_cons, elem_of_nil in Hin.
  destruct Hin as [-> | [-> | [-> | []]]]; reflexivity.
Qed.

Lemma fnPre_mono u b b' f : (b = true -> b' = true) -> fnPre u b f -> fnPre u b' f.
Proof. destruct f; simpl; intuition. Qed.

Lemma netOk_mono u p : forall b b', (b = true -> b' = true) -> netOk u b p -> netOk u b' p.
Proof.
  assert (Hor : forall b b' x, (b = true -> b' = true) -> b || x = true -> b' || x = true)
    by (intros [] [] []; simpl; auto).
  induction p; simpl; intros b b' Hbb Hp.
  - exact I.
  - exact I.
  - destruct Hp as [Hr Hk]. split; eauto.
  - eauto.
  - destruct Hp as [-> Hk]. split; [reflexivity|]. intros found. eauto.
  - destruct Hp as (-> & Hs & Hk). repeat split; eauto.
  - eauto.
  - destruct Hp as [-> Hk]. split; [reflexivity|]. intros found. eauto.
  - exact Hp.
  - destruct Hp as [Hf Hk]. split; eauto using fnPre_mono.
  - destruct Hp as (Hb & Hh & Hk). repeat split; eauto.
  - destruct Hp as (Hb & Hh & Hfin & Hk). repeat split; eauto.
Qed.

Lemma netOkFrame_mono u b b' fr :
  (b = true -> b' = true) -> netOkFrame u b fr -> netOkFrame u b' fr.
Proof. destruct fr; simpl; eauto using netOk_mono. Qed.

Lemma netOk_deleteEach u b messages k : netOk u b k -> netOk u b (deleteEach messages k).
Proof. intros Hk. induction messages; simpl; auto. Qed.

Ltac check_net :=
  repeat first
    [ match goal with Hvalid : validEmbed _ = _ |- _ => clear Hvalid end
    | progress (simpl; intros)
    | apply netOk_deleteEach
    | split
    | case_match ];
  try done.

Lemma body_netOk u known f : fnPre u known f -> netOk u known (body f).
Proof.
  destruct f; simpl; intros Hpre; destruct_and?; subst;
    unfold promptNetworkSelection, promptWalletOptions, createNewWallet, importExistingWallet,
      promptWalletActions, sendKaspaPrompt, checkBalance, showTransactionHistory,
      showHelpMessage, clearChatHistory, rateLimited, deleteQuietly, recordWallet,
      getTransactionHistory, buildEmbed.
  all: check_net.
  all: try (eapply accepted_network_truthy; eassumption).
Qed.

Lemma handleWalletCommand_netOk message :
  netOk (author message) false (handleWalletCommand message).
Proof.
  unfold handleWalletCommand.
  assert (Hdispatch : forall ch,
    netOk (author message) false
      (StatesGet (author message) (fun found =>
       let currentState := default IDLE found in
       if bool_decide (currentState ∈ [SENDING_KASPA; IMPORTING_WALLET]) then End
       else
         Try
           (SettingsGet (author message) (fun userSession =>
            match currentState with
            | IDLE =>
                Await (ChannelSend ch (Text welcomeText)) Throw
                  (fun _ => Call (PromptNetworkSelection ch (author message)) End)
            | NETWORK_SELECTION => Call (PromptNetworkSelection ch (author message)) End
            | WALLET_OPTIONS =>
                match networkOf userSession with
                | Some net => Call (PromptWalletOptions ch (author message) net) End
                | None => Call (PromptNetworkSelection ch (author message)) End
                end
            | WALLET_ACTIONS => Call (PromptWalletActions ch (author message)) End
            | _ => StatesSet (author message) IDLE
                     (Call (PromptNetworkSelection ch (author message)) End)
            end))
           (fun error => Ask (HandleError error ch "handleWalletCommand") (fun _ => End))
           End))).
  { intros ch. simpl. split; [reflexivity|].
    intros [[]|]; simpl; try case_match; simpl; auto; repeat split; intros; simpl; auto;
      try discriminate.
    all: try (case_match; simpl; repeat split; eauto using networkOf_truthy).
    }
  destruct (chType (channel message)); [apply Hdispatch|].
  simpl. split; [auto|]. intros dm _. split; [auto|]. intros _ _. apply Hdispatch.
Qed.

Lemma hasNetwork_setState u s w u' : hasNetwork (setState u s w) u' = hasNetwork w u'.
Proof. reflexivity. Qed.

Lemma hasNetwork_deleteState u w u' : hasNetwork (deleteState u w) u' = hasNetwork w u'.
Proof. reflexivity. Qed.

Lemma hasNetwork_setSession u s w u' :
  truthy (network s) = true ->
  hasNetwork w u' = true -> hasNetwork (setSession u s w) u' = true.
Proof.
  intros Hs. unfold hasNetwork, setSession. simpl.
  destruct (decide (u = u')) as [->|Hne].
  - rewrite lookup_insert_eq. auto.
  - rewrite lookup_insert_ne by exact Hne. auto.
Qed.

Lemma flowOk_mono w w' p stk :
  (forall u, hasNetwork w u = true -> hasNetwork w' u = true) ->
  flowOk w p stk -> flowOk w' p stk.
Proof.
  intros Hmono (u & known & Hk & Hp & Hstk). exists u, known. auto.
Qed.

(** A step of a flow keeps the maps consistent, keeps the flow in order, and
    never removes a recorded network. *)
Lemma step_flowOk env w p stk st' :
  worldOk w -> flowOk w p stk -> step env (mkState p stk w []) = Some st' ->
  worldOk (world st') /\ flowOk (world st') (prog st') (stack st')
  /\ (forall u, hasNetwork w u = true -> hasNetwork (world st') u = true).
Proof.
  intros Hw (u & known & Hk & Hp & Hstk) Hstep.
  unfold step in Hstep. simpl in Hstep.
  assert (Hframes : forall b', (known = true -> b' = true) ->
                               Forall (netOkFrame u b') stk).
  { intros b' Hb. eapply Forall_impl; [exact Hstk|]. intros fr. apply netOkFrame_mono, Hb. }
  destruct p; simpl in Hp.
  - destruct stk as [|[k|h|fin|e] rest]; simplify_eq; simpl;
      apply Forall_cons in Hstk as [Hfr Hrest]; simpl in Hfr;
      (split; [exact Hw|]); (split; [|auto]); exists u, known; auto.
  - destruct stk as [|[k|h|fin|e'] rest]; simplify_eq; simpl;
      apply Forall_cons in Hstk as [Hfr Hrest]; simpl in Hfr;
      (split; [exact Hw|]); (split; [|auto]); exists u, known; repeat split; simpl; auto;
      try (apply Forall_cons; split; simpl; auto).
  - destruct Hp as [Hrej Hacc]. simplify_eq. simpl.
    split; [exact Hw|]. split; [|auto]. exists u, known. repeat split; auto.
    unfold settle. destruct (reply env 0 q) as [e|v]; [apply Hrej|].
    destruct (accepts q v) eqn:Ha; [apply Hacc; exact Ha | apply Hrej].
  - simplify_eq. simpl. split; [exact Hw|]. split; [|auto]. exists u, known. auto.
  - destruct Hp as [-> Hk']. simplify_eq. simpl.
    split; [exact Hw|]. split; [|auto].
    exists u, (known || from_option needsNet false (userWalletStates w !! u)).
    split; [|split; [apply Hk' | apply Hframes; intros ->; reflexivity]].
    intros Hor. apply orb_true_iff in Hor as [->|Hn]; [auto|].
    destruct (userWalletStates w !! u) as [s0|] eqn:Es; [|discriminate].
    eapply Hw; eassumption.
  - destruct Hp as (-> & Hs & Hk'). simplify_eq. simpl.
    split; [|split; [|auto]].
    + intros u' s' Hl Hn. rewrite hasNetwork_setState. simpl in Hl.
      destruct (decide (u = u')) as [<-|Hne].
      * rewrite lookup_insert_eq in Hl. simplify_eq. auto.
      * rewrite lookup_insert_ne in Hl by exact Hne. eapply Hw; eassumption.
    + exists u, known. auto.
  - simplify_eq. simpl. split; [|split; [|auto]].
    + intros u' s' Hl Hn. rewrite hasNetwork_deleteState. simpl in Hl.
      apply lookup_delete_Some in Hl as [_ Hl]. eapply Hw; eassumption.
    + exists u, known. auto.
  - destruct Hp as [-> Hk']. simplify_eq. simpl.
    split; [exact Hw|]. split; [|auto].
    exists u, (known || from_option (fun s => truthy (network s)) false (userSettings w !! u)).
    split; [|split; [apply Hk' | apply Hframes; intros ->; reflexivity]].
    intros Hor. apply orb_true_iff in Hor as [->|Hn]; [auto|].
    unfold hasNetwork. destruct (userSettings w !! u); [exact Hn | discriminate].
  - destruct Hp as (-> & Hs & Hk'). simplify_eq. simpl.
    split; [|split].
    + intros u' s' Hl Hn. apply hasNetwork_setSession; [exact Hs|]. eapply Hw; eassumption.
    + exists u, true. split; [|split; [exact Hk' | apply Hframes; auto]].
      intros _. unfold hasNetwork, setSession. simpl. rewrite lookup_insert_eq. exact Hs.
    + intros u'. apply hasNetwork_setSession. exact Hs.
  - destruct Hp as [Hf Hk']. simplify_eq. simpl.
    split; [exact Hw|]. split; [|auto]. exists u, known.
    split; [exact Hk|]. split; [apply body_netOk; exact Hf|].
    apply Forall_cons; split; simpl; auto.
  - destruct Hp as (Hb & Hh & Hk'). simplify_eq. simpl.
    split; [exact Hw|]. split; [|auto]. exists u, known.
    split; [exact Hk|]. split; [exact Hb|].
    repeat (apply Forall_cons; split; simpl; auto).
  - destruct Hp as (Hb & Hh & Hfin & Hk'). simplify_eq. simpl.
    split; [exact Hw|]. split; [|auto]. exists u, known.
    split; [exact Hk|]. split; [exact Hb|].
    repeat (apply Forall_cons; split; simpl; auto).
Qed.

Lemma reachable_worldOk s : reachable s -> worldOk (shared s).
Proof.
  intros Hr.
  apply (sys_invariant worldOk flowOk) in Hr; [tauto | | |].
  - intros u s0 Hl. simpl in Hl. rewrite lookup_empty in Hl. discriminate.
  - intros w message _. exists (author message), false.
    split; [discriminate|]. split; [apply handleWalletCommand_netOk | constructor].
  - intros env w p stk st' Hw Hflow Hst.
    destruct (step_flowOk env w p stk st' Hw Hflow Hst) as (Hw' & Hflow' & Hmono).
    split; [exact Hw'|]. split; [exact Hflow'|].
    intros p2 stk2. apply flowOk_mono, Hmono.
Qed.

(** C5. In every state the process can reach from the empty maps, a user
    whose recorded state is WALLET_OPTIONS, WALLET_ACTIONS, SENDING_KASPA,
    IMPORTING_WALLET, CHECKING_BALANCE or VIEWING_HISTORY has a session whose
    network is set. *)
Theorem network_recorded_past_selection s u st :
  reachable s ->
  userWalletStates (shared s) !! u = Some st ->
  st ∈ pastNetworkSelection ->
  exists session net,
    userSettings (shared s) !! u = Some session
    /\ network session = Some net
    /\ net <> EmptyString.
Proof.
  intros Hr Hl Hin.
  assert (Hn : needsNet st = true).
  { unfold pastNetworkSelection in Hin. rewrite !elem_of_cons, elem_of_nil in Hin.
    destruct Hin as [-> | [-> | [-> | [-> | [-> | [-> | []]]]]]]; reflexivity. }
  pose proof (reachable_worldOk s Hr u st Hl Hn) as Hnet.
  unfold hasNetwork in Hnet.
  destruct (userSettings (shared s) !! u) as [session|]; [|discriminate].
  unfold truthy in Hnet. destruct (network session) as [net|] eqn:En; [|discriminate].
  exists session, net. split; [reflexivity|]. split; [exact En|].
  intros ->. discriminate Hnet.
Qed.

(** The steps of a conversation run on its own are steps of the process. *)
Lemma step_later env p stk w tr st' :
  step env (mkState p stk w tr) = Some st' ->
  exists st'',
    step (later (length tr) env) (mkState p stk w []) = Some st''
    /\ prog st'' = prog st' /\ stack st'' = stack st' /\ world st'' = world st'.
Proof.
  unfold step. simpl. rewrite Nat.add_0_r.
  destruct p; try (destruct stk as [|[k0|h0|fin0|e0] rest]); intros Hst; simplify_eq;
    eexists; split; try reflexivity; simpl; auto.
Qed.

Lemma run_reachable stop env fuel message :
  let st := final (run stop env fuel (start (handleWalletCommand message) emptyWorld)) in
  reachable (mkSys (world st) [(prog st, stack st)]).
Proof.
  assert (Hgen : forall fuel st0,
            reachable (mkSys (world st0) [(prog st0, stack st0)]) ->
            reachable (mkSys (world (final (run stop env fuel st0)))
                         [(prog (final (run stop env fuel st0)),
                           stack (final (run stop env fuel st0)))])).
  { clear fuel. induction fuel as [|fuel IH]; intros st0 Hr; rewrite run_eq.
    - destruct (stop st0); exact Hr.
    - destruct (stop st0); [exact Hr|].
      destruct (step env st0) as [st1|] eqn:Est.
      2:{ assert (Hfin : final (match prog st0 with
                                | Throw e => Uncaught e st0
                                | _ => Returned st0
                                end) = st0) by (destruct (prog st0); reflexivity).
          rewrite Hfin. exact Hr. }
      apply IH. destruct st0 as [p stk w tr].
      destruct (step_later env p stk w tr st1 Est) as (st2 & Hst2 & Hp & Hs & Hw).
      eapply rtc_r; [exact Hr|]. simpl.
      rewrite <- Hp, <- Hs, <- Hw.
      apply (sysAdvance w [(p, stk)] 0 p stk (later (length tr) env) st2); [reflexivity|].
      exact Hst2. }
  apply Hgen. unfold start. simpl.
  eapply rtc_r; [apply rtc_refl|].
  apply (sysDispatch emptyWorld [] message).
Qed.

End NetworkInvariant.

(** ** The view actions and the two states nothing enters *)

(** C10 (amended). The balance, history, help and clear-chat actions have no
    node that writes [userWalletStates] (or calls a routine).  Run from any
    maps, each of them returns, whether it succeeded or an error was caught
    and reported.  In a run of the action on its own the map is, at every
    moment and at the end, as it was when the action started; and at any
    point it has reached, its next step leaves the map as it finds it,
    whatever the maps have become in the meantime (what other flows write is
    theirs).  The menu calls such an action with both maps as they were when
    the menu was opened.  And in no reachable state of the process is any
    user recorded in CHECKING_BALANCE or VIEWING_HISTORY. *)
Theorem view_actions_leave_state_alone `{Lib} :
  (forall f, isViewAction f = true -> every quietNode (body f))
  /\ (forall f, isViewAction f = true ->
      forall env w, exists fuel st',
        run toEnd env fuel (start (body f) w) = Returned st'
        /\ userWalletStates (world st') = userWalletStates w)
  /\ (forall f, isViewAction f = true ->
      forall env stop fuel w,
        userWalletStates (world (final (run stop env fuel (start (body f) w))))
        = userWalletStates w)
  /\ (forall f, isViewAction f = true ->
      forall env stop fuel w,
        let st := final (run stop env fuel (start (body f) w)) in
        forall env' w' tr' st',
          step env' (mkState (prog st) (stack st) w' tr') = Some st' ->
          userWalletStates (world st') = userWalletStates w')
  /\ (forall env ch u w st f k,
        run atCall env 20 (start (promptWalletActions ch u) w) = Stopped st ->
        prog st = Call f k -> isViewAction f = true -> world st = w)
  /\ (forall s, reachable s -> onlyUsedStates (shared s)).
Proof.
  split; [exact viewAction_quiet|].
  split; [intros f Hf; apply (viewAction_run f Hf)|].
  split; [intros f Hf; apply (viewAction_run f Hf)|].
  split; [intros f Hf env stop fuel w; apply (viewAction_step f env stop fuel w Hf)|].
  split; [exact menu_calls_view_action|].
  exact reachable_onlyUsedStates.
Qed.

(** A balance check can start, and so run, while the user has no entry in
    [userWalletStates] at all: the menu that a send flow re-prompts when it
    unwinds, after [back] and a failed network prompt discarded the entry. *)
Lemma balance_can_run_without_state_entry :
  ~ (forall (L : Lib) env fuel message st,
       run (atCallOf isCheckBalance) env fuel (start (handleWalletCommand message) emptyWorld)
       = Stopped st ->
       userWalletStates (world st) !! author message = Some WALLET_ACTIONS).
Proof.
  intros Hc.
  set (r := run (atCallOf isCheckBalance) (scripted staleMenuScript) 400
              (start (handleWalletCommand dmCommand) emptyWorld)).
  assert (Hr : r = Stopped (final r)) by (vm_compute; reflexivity).
  apply (Hc sampleLib) in Hr. vm_compute in Hr. discriminate Hr.
Qed.

(** ** The claims on concrete conversations *)



Lemma network_recorded_past_selection_witness :
  let st := final (run (atCallOf isPromptWalletOptions) (scripted selectionScript) 40
                     (start (handleWalletCommand dmCommand) emptyWorld)) in
  userWalletStates (world st) !! alice = Some WALLET_OPTIONS
  /\ exists session net,
       userSettings (world st) !! alice = Some session
       /\ network session = Some net /\ net <> EmptyString.
Proof.
  intros st. split; [vm_compute; reflexivity|].
  pose proof (run_reachable (atCallOf isPromptWalletOptions) (scripted selectionScript) 40
                dmCommand) as Hreach.
  change (reachable (mkSys (world st) [(prog st, stack st)])) in Hreach.
  assert (Hl : userWalletStates (shared (mkSys (world st) [(prog st, stack st)])) !! alice
               = Some WALLET_OPTIONS) by (vm_compute; reflexivity).
  assert (Hin : WALLET_OPTIONS ∈ pastNetworkSelection)
    by (unfold pastNetworkSelection; rewrite elem_of_cons; left; reflexivity).
  exact (network_recorded_past_selection _ alice WALLET_OPTIONS Hreach Hl Hin).
Defined.

Lemma network_timeout_discards_state_witness :
  let r := run atCall (scripted unansweredNetworkScript) 20
             (start (promptNetworkSelection dmChannel alice) readyWorld) in
  existsb (unanswered networkIds) (trace (final r)) = true
  /\ userWalletStates (world (final r)) !! alice = None.
Proof.
  intros r. split; [vm_compute; reflexivity|].
  destruct (network_timeout_discards_state (scripted unansweredNetworkScript) dmChannel alice
              readyWorld) as (_ & Hst & _).
  - vm_compute. reflexivity.
  - fold r in Hst. rewrite Hst. apply lookup_delete_eq.
Defined.

(** After a network-selection wait timed out, a command can find the user in
    WALLET_ACTIONS and resume the menu, with no command in between: the
    selection had been entered by [back] from the menu a failed send flow
    re-opened; when it returned, the unwinding flow showed the menu again,
    and the send flow started there wrote the state anew. *)
Lemma command_after_timeout_resumes_menu :
  ~ (forall (L : Lib) env n fuel message st env' st',
       run (atWaitAfter n) env fuel (start (handleWalletCommand message) emptyWorld)
       = Stopped st ->
       existsb (unanswered networkIds) (trace st) = true ->
       run atCall env' 10 (start (handleWalletCommand message) (world st)) = Stopped st' ->
       exists ch, prog st' = Call (PromptNetworkSelection ch (author message)) End).
Proof.
  intros Hc.
  set (r := run (atWaitAfter 40) (scripted timedOutSelectionScript) 400
              (start (handleWalletCommand dmCommand) emptyWorld)).
  assert (Hr : r = Stopped (final r)) by (vm_compute; reflexivity).
  set (r' := run atCall (scripted []) 10 (start (handleWalletCommand dmCommand) (world (final r)))).
  assert (Hr' : r' = Stopped (final r')) by (vm_compute; reflexivity).
  assert (Htimeout : existsb (unanswered networkIds) (trace (final r)) = true)
    by (vm_compute; reflexivity).
  destruct (Hc sampleLib (scripted timedOutSelectionScript) 40%nat 400%nat dmCommand (final r)
              (scripted []) (final r') Hr Htimeout Hr') as [ch Hp].
  vm_compute in Hp. discriminate Hp.
Qed.

Lemma trigger_shows_network_prompt_witness :
  userWalletStates emptyWorld !! author dmCommand = None
  /\ exists st',
       run atWait (scripted triggerScript) 20 (start (handleWalletCommand dmCommand) emptyWorld)
       = Stopped st'.
Proof.
  split; [vm_compute; reflexivity|].
  destruct (trigger_shows_network_prompt (scripted triggerScript) dmCommand emptyWorld)
    as (_ & _ & Hshown & _).
  - vm_compute. reflexivity.
  - apply Hshown. vm_compute. reflexivity.
Defined.

(** While the network prompt is shown to a user with no prior session, no
    state is recorded for that user: the entry is not NETWORK_SELECTION. *)
Lemma trigger_records_no_network_selection :
  ~ (forall (L : Lib) env message w st',
       userWalletStates w !! author message = None ->
       run atWait env 20 (start (handleWalletCommand message) w) = Stopped st' ->
       userWalletStates (world st') !! author message = Some NETWORK_SELECTION).
Proof.
  intros Hc.
  set (r := run atWait (scripted triggerScript) 20
              (start (handleWalletCommand dmCommand) emptyWorld)).
  assert (Hr : r = Stopped (final r)) by (vm_compute; reflexivity).
  apply (Hc sampleLib) in Hr; [|vm_compute; reflexivity].
  vm_compute in Hr. discriminate Hr.
Qed.

Lemma network_choice_replaces_session_witness :
  userSettings readyWorld !! alice = Some (mkSession (Some "Mainnet") (Some "kaspa:me") 0)
  /\ exists st,
       run atCall (scripted networkChoiceScript) 20
         (start (promptNetworkSelection dmChannel alice) readyWorld) = Stopped st
       /\ omap (pressed networkIds) (trace st) = ["Testnet-10"]
       /\ userSettings (world st) !! alice = Some (mkSession (Some "Testnet-10") None 0).
Proof.
  split; [vm_compute; reflexivity|].
  destruct (network_choice_replaces_session (scripted networkChoiceScript) dmChannel alice
              readyWorld) as [Hgoes Hdone].
  destruct (Hgoes 0%nat (mkInteraction "Testnet-10" alice)) as (st & Hrun & _ & Hset);
    try (vm_compute; reflexivity).
  - unfold networkIds. rewrite !elem_of_cons. right. left. reflexivity.
  - exists tt. reflexivity.
  - exists 0%nat. reflexivity.
  - exists st. split; [exact Hrun|].
    destruct (Hdone st Hrun) as (selected & now & Hpress & _ & _ & _ & Hset' & _).
    split.
    + rewrite Hpress. f_equal.
      assert (Heq : Some (mkSession (Some selected) None now)
                    = Some (mkSession (Some "Testnet-10") None 0)).
      { rewrite <- (lookup_insert_eq (userSettings readyWorld) alice
                      (mkSession (Some selected) None now)), <- Hset', Hset.
        apply lookup_insert_eq. }
      congruence.
    + rewrite Hset. apply lookup_insert_eq.
Defined.

(** * Further properties of the routines *)

(** ** No error leaves a routine, the network selection apart *)

Section SafetyProofs.
Context `{Lib}.

Lemma step_guarded env st st' : guarded st -> step env st = Some st' -> guarded st'.
Proof.
  intros [Hp Hstk] Hstep. destruct st as [p stk w tr]. unfold step in Hstep.
  unfold guarded in *. simpl in *.
  destruct p; simpl in *.
  - destruct stk as [|[k|h|fin|e] rest]; simplify_eq; simpl in *;
      destruct Hstk as [Hfr Hrest]; split; auto.
  - destruct Hp as [[]|Hc].
    destruct stk as [|[k|h|fin|e'] rest]; simplify_eq; simpl in *;
      try discriminate; destruct Hstk as [Hfr Hrest]; split; auto.
    destruct Hfr; auto.
  - simplify_eq. simpl. split; [|exact Hstk].
    destruct Hp as [[Hr Hk]|Hc]; [left|right; exact Hc].
    unfold settle. destruct (reply env (length tr) q) as [e|v]; [apply Hr|].
    destruct (accepts q v) eqn:Ha; [apply Hk; exact Ha | apply Hr].
  - simplify_eq. simpl. split; [|exact Hstk]. destruct Hp; auto.
  - simplify_eq. simpl. split; [|exact Hstk]. destruct Hp; auto.
  - simplify_eq. simpl. split; [|exact Hstk]. destruct Hp; auto.
  - simplify_eq. simpl. split; [|exact Hstk]. destruct Hp; auto.
  - simplify_eq. simpl. split; [|exact Hstk]. destruct Hp; auto.
  - simplify_eq. simpl. split; [|exact Hstk]. destruct Hp; auto.
  - simplify_eq. simpl. destruct Hp as [[Hf Hk]|Hc].
    + split; [left | split; [left; exact Hk | exact Hstk]].
      destruct f; try discriminate; simpl; auto.
    + split; [right; exact Hc | split; [right; exact Hc | exact Hstk]].
  - simplify_eq. simpl. split; [right; reflexivity|].
    destruct Hp as [[Hh Hk]|Hc]; repeat split; auto.
  - simplify_eq. simpl. split; [right; reflexivity|].
    destruct Hp as [(Hh & Hfin & Hk)|Hc]; repeat split; auto.
Qed.

Lemma body_calm f : neverThrows f = true -> calm (body f).
Proof. destruct f; try discriminate; intros _; simpl; auto. Qed.

Lemma run_uncaught stop env fuel st0 e st :
  run stop env fuel st0 = Uncaught e st -> prog st = Throw e /\ stack st = [].
Proof.
  revert st0. induction fuel as [|fuel IH]; intros st0; rewrite run_eq.
  - destruct (stop st0); discriminate.
  - destruct (stop st0); [discriminate|].
    destruct (step env st0) as [st1|] eqn:Est; [apply IH|].
    destruct st0 as [p stk w tr]. simpl.
    destruct p; try discriminate. intros [= <- <-]. simpl. split; [reflexivity|].
    unfold step in Est. simpl in Est. destruct stk as [|[]]; [reflexivity|discriminate..].
Qed.

Lemma guarded_run_never_throws stop env fuel st0 e st :
  guarded st0 -> run stop env fuel st0 <> Uncaught e st.
Proof.
  intros Hg Hrun.
  pose proof (run_preserves guarded env (step_guarded env) stop fuel st0 Hg) as Hfin.
  rewrite Hrun in Hfin. simpl in Hfin.
  destruct (run_uncaught _ _ _ _ _ _ Hrun) as [Hp Hs].
  destruct Hfin as [[Hc|Hc] _]; rewrite ?Hp, ?Hs in Hc; simpl in Hc;
    [exact Hc | discriminate Hc].
Qed.

(** X1. No routine but the network selection lets an error out: however a
    run of its body goes (whatever the collaborators answer, and through
    the routines it calls in turn), it never ends with an error thrown out
    of it.  Every such routine wraps its work in a [try] whose [catch] and
    [finally] only report, write the state and call routines of the same
    kind. *)
Theorem routines_never_throw f env stop fuel w e st :
  neverThrows f = true ->
  run stop env fuel (start (body f) w) <> Uncaught e st.
Proof.
  intros Hf. apply guarded_run_never_throws.
  split; simpl; [left; apply body_calm; exact Hf | exact I].
Qed.

(** X2. A wallet command sent from a DM never ends with an error thrown out
    of the handler, not even when the network selection it starts throws its
    rate-limit error: the handler's [catch] takes it. *)
Theorem dm_command_never_throws env stop fuel message w e st :
  chType (channel message) = DM ->
  run stop env fuel (start (handleWalletCommand message) w) <> Uncaught e st.
Proof.
  intros Hdm. apply guarded_run_never_throws.
  split; simpl; [left | exact I].
  unfold handleWalletCommand. rewrite Hdm. simpl.
  intros found. destruct (bool_decide _); simpl; auto.
Qed.

End SafetyProofs.

(** ** A flow writes its own user's entries only *)

Section Isolation.
Context `{Lib}.

Lemma body_ownWrites f : every (ownWrites (fnUser f)) (body f).
Proof.
  destruct f; unfold body;
    unfold promptNetworkSelection, promptWalletOptions, createNewWallet, importExistingWallet,
      promptWalletActions, sendKaspaPrompt, checkBalance, showTransactionHistory,
      showHelpMessage, clearChatHistory, rateLimited, deleteQuietly, recordWallet,
      getTransactionHistory, buildEmbed.
  all: check_every.
Qed.

Lemma handleWalletCommand_ownWrites message :
  every (ownWrites (author message)) (handleWalletCommand message).
Proof. unfold handleWalletCommand. check_every. Qed.

(** X3. Handling a command of one user, as far and through as many routines
    as the run goes, leaves the entries of every other user in both maps as
    they were. *)
Theorem command_leaves_other_users_alone env stop fuel message w other :
  other <> author message ->
  let st := final (run stop env fuel (start (handleWalletCommand message) w)) in
  userWalletStates (world st) !! other = userWalletStates w !! other
  /\ userSettings (world st) !! other = userSettings w !! other.
Proof.
  intros Hne st. subst st.
  apply (run_preserves
           (fun st => everywhere (ownWrites (author message)) st
                      /\ userWalletStates (world st) !! other = userWalletStates w !! other
                      /\ userSettings (world st) !! other = userSettings w !! other) env).
  - intros st st' (Hev & Hs & Hu) Hstep. split.
    + eapply step_everywhere; [|exact Hev|exact Hstep].
      intros f Hf. simpl in Hf. rewrite <- Hf. apply body_ownWrites.
    + destruct Hev as [Hp _].
      destruct (step_world env st st' Hstep)
        as [-> | [(u & s & k & Hprog & ->) | [(u & k & Hprog & ->) | (u & s & k & Hprog & ->)]]];
        [auto|..]; rewrite Hprog in Hp; simpl in Hp; destruct Hp as [-> _]; simpl.
      * rewrite lookup_insert_ne by (intros Heq; apply Hne; symmetry; exact Heq). auto.
      * rewrite lookup_delete_ne by (intros Heq; apply Hne; symmetry; exact Heq). auto.
      * rewrite lookup_insert_ne by (intros Heq; apply Hne; symmetry; exact Heq). auto.
  - split; [|split; reflexivity].
    repeat split; simpl; auto using handleWalletCommand_ownWrites.
Qed.

Lemma viewAction_readOnly f : isViewAction f = true -> every readOnlyNode (body f).
Proof.
  destruct f; try discriminate; intros _; unfold body;
    unfold checkBalance, showTransactionHistory, showHelpMessage, clearChatHistory,
      rateLimited, getTransactionHistory, buildEmbed.
  all: check_every.
Qed.

(** X4. The balance, history, help and clear-chat routines write neither
    map: at every point of a run of theirs, [userWalletStates] and
    [userSettings] are what they were at the start. *)
Theorem view_actions_write_nothing f env stop fuel w :
  isViewAction f = true ->
  world (final (run stop env fuel (start (body f) w))) = w.
Proof.
  intros Hf.
  apply (run_preserves (fun st => everywhere readOnlyNode st /\ world st = w) env).
  - intros st st' [Hev Hw] Hstep. split.
    + eapply step_everywhere; [|exact Hev|exact Hstep]. intros g [].
    + destruct Hev as [Hp _].
      destruct (step_world env st st' Hstep)
        as [-> | [(u & s & k & Hprog & _) | [(u & k & Hprog & _) | (u & s & k & Hprog & _)]]];
        [exact Hw|..]; rewrite Hprog in Hp; simpl in Hp; tauto.
  - split; [|reflexivity]. repeat split; simpl; auto using viewAction_readOnly.
Qed.

End Isolation.

(** ** Wallet options, creation and import *)

Section Setup.
Context `{Lib}.



(** X7. [importExistingWallet] never leaves the user in IMPORTING_WALLET: it
    always ends by calling the actions menu with the state WALLET_ACTIONS
    and nothing reported, or the wallet options with the state
    WALLET_OPTIONS and one error reported.  The import is asked for at most
    once, with the sanitized text of the message collected, and that text
    passed [validatePrivateKey] (or is empty, when the wait resolved with
    nothing collected). *)
Theorem importExistingWallet_outcomes env ch u net w :
  let r := run atCall env 20 (start (importExistingWallet ch u net) w) in
  let tr := trace (final r) in
  exists st,
    r = Stopped st
    /\ ((prog st = Call (PromptWalletActions ch u) End
         /\ userWalletStates (world st) = <[u := WALLET_ACTIONS]> (userWalletStates w)
         /\ reported tr = [])
        \/ (prog st = Call (PromptWalletOptions ch u net) End
            /\ userWalletStates (world st) = <[u := WALLET_OPTIONS]> (userWalletStates w)
            /\ exists e, reported tr = [e]))
    /\ (importedKeys tr = []
        \/ exists text,
             entered tr = [text]
             /\ importedKeys tr = [sanitizeInput text]
             /\ (text = EmptyString \/ validatePrivateKey text = true)).
Proof.
  intros r. revert r.
  remember (run atCall env 20 (start (importExistingWallet ch u net) w)) as r0 eqn:Hr.
  revert Hr. unfold start, importExistingWallet, recordWallet.
  symbolic.
  all: intros ->; simpl; eexists; split; [reflexivity|]; simpl.
  all: rewrite ?insert_insert_eq.
  all: split;
    [ first [ left; repeat split; reflexivity
            | right; split; [reflexivity|]; split; [reflexivity|]; eexists; reflexivity ] |].
  all: try (left; reflexivity).
  all: right; eexists; split; [reflexivity|]; split; [reflexivity|].
  all: match goal with
       | Hx : settle (AwaitMessages _ _ _ _) _ = inr ?c |- _ =>
           apply settle_inr in Hx; simpl in Hx;
           apply andb_true_iff in Hx as [Hx _];
           destruct c as [|m rest]; [left; reflexivity|];
           simpl in Hx; apply andb_true_iff in Hx as [Hx _];
           apply andb_true_iff in Hx as [_ Hx]; right; exact Hx
       end.
Qed.

End Setup.

(** ** The actions menu *)

Section Menu.
Context `{Lib}.

End Menu.

(** ** Network selection *)

Section Selection.
Context `{Lib}.


End Selection.

(** ** What the send flow reports *)

Section SendReports.
Context `{Lib}.

(** X10. The checks of the send flow come in the order of the source and
    each ends the conversation at once.  Without a recorded network nothing
    is asked of the user and INVALID_SESSION is reported.  When the address
    entered fails [validateAddress], the amount is never asked for: the
    address prompt and its wait are the only requests, and INVALID_ADDRESS
    is reported.  When the amount entered fails [validateAmount], no
    confirmation is shown: the two prompts and their waits are the only
    requests, and INVALID_AMOUNT is reported. *)
Theorem sendKaspaPrompt_validation_order env ch u w :
  let r := run atCall env 40 (start (sendKaspaPrompt ch u) w) in
  let tr := trace (final r) in
  (networkOf (userSettings w !! u) = None ->
     requests tr = [] /\ codeOf <$> reported tr = [Some "INVALID_SESSION"])
  /\ (forall a rest,
        entered tr = a :: rest -> validateAddress (sanitizeInput a) = false ->
        rest = []
        /\ requests tr = [ ChannelSend ch (Text "Please enter the recipient's Kaspa address:");
                           AwaitMessages ch (FromUser u) 1 60000 ]
        /\ codeOf <$> reported tr = [Some "INVALID_ADDRESS"])
  /\ (forall a b,
        entered tr = [a; b] -> validateAmount (sanitizeInput b) = false ->
        requests tr = [ ChannelSend ch (Text "Please enter the recipient's Kaspa address:");
                        AwaitMessages ch (FromUser u) 1 60000;
                        ChannelSend ch (Text "Please enter the amount of KAS to send:");
                        AwaitMessages ch (FromUser u) 1 60000 ]
        /\ codeOf <$> reported tr = [Some "INVALID_AMOUNT"]).
Proof.
  intros r. revert r.
  remember (run atCall env 40 (start (sendKaspaPrompt ch u) w)) as r0 eqn:Hr.
  revert Hr. unfold start, sendKaspaPrompt, buildEmbed.
  symbolic.
  all: intros ->; simpl; unfold entered; simpl; unnegb.
  all: split; [intros Hn; first [discriminate Hn | split; reflexivity]|].
  all: split; [intros ? ? He Hv; simplify_eq; first [congruence | repeat split; reflexivity]|].
  all: intros ? ? He Hv; simplify_eq; first [congruence | split; reflexivity].
Qed.

(** X11. A transfer that [sendKaspa] rejects is told to the user as a failed
    confirmation and is never handed to [handleError]: the last message of
    the flow is the text of line 410, and the only error that can be
    reported is the rejection of that very message. *)
Theorem rejected_transfer_is_not_reported env ch u w :
  let r := run atCall env 40 (start (sendKaspaPrompt ch u) w) in
  let tr := trace (final r) in
  existsb transferRejected tr = true ->
  last (requests tr) = Some (ChannelSend ch (Text confirmationFailed))
  /\ ((exists e, rejections tr = [e] /\ reported tr = [])
      \/ (exists e e', rejections tr = [e; e'] /\ reported tr = [e'])).
Proof.
  intros r. revert r.
  remember (run atCall env 40 (start (sendKaspaPrompt ch u) w)) as r0 eqn:Hr.
  revert Hr. unfold start, sendKaspaPrompt, buildEmbed.
  symbolic.
  all: intros ->; simpl; intros Hrej; try discriminate Hrej.
  all: split; [reflexivity|].
  all: first [ left; eexists; split; reflexivity
             | right; do 2 eexists; split; reflexivity ].
Qed.

End SendReports.

(** ** Where a command resumes *)

Section Resume.
Context `{Lib}.

(** X12. A command sent from a DM by a user with a recorded state other than
    IDLE, SENDING_KASPA and IMPORTING_WALLET resumes without any message
    (no welcome): it goes straight to the call of the actions menu
    (WALLET_ACTIONS), of the network selection (NETWORK_SELECTION), of the
    wallet options for the recorded network or, without one, of the network
    selection (WALLET_OPTIONS); for CHECKING_BALANCE and VIEWING_HISTORY it
    first overwrites the state with IDLE and then calls the network
    selection.  Only that last case writes a map. *)
Theorem command_resumes_recorded_state env message w s :
  chType (channel message) = DM ->
  userWalletStates w !! author message = Some s ->
  s <> IDLE -> s <> SENDING_KASPA -> s <> IMPORTING_WALLET ->
  let u := author message in
  let ch := channel message in
  exists st,
    run atCall env 10 (start (handleWalletCommand message) w) = Stopped st
    /\ trace st = []
    /\ match s with
       | WALLET_ACTIONS => world st = w /\ prog st = Call (PromptWalletActions ch u) End
       | WALLET_OPTIONS =>
           world st = w
           /\ prog st = Call (match networkOf (userSettings w !! u) with
                              | Some net => PromptWalletOptions ch u net
                              | None => PromptNetworkSelection ch u
                              end) End
       | NETWORK_SELECTION => world st = w /\ prog st = Call (PromptNetworkSelection ch u) End
       | _ => world st = setState u IDLE w /\ prog st = Call (PromptNetworkSelection ch u) End
       end.
Proof.
  intros Hdm Hs Hidle Hsend Himp u ch. subst u ch.
  assert (Hin : bool_decide (default IDLE (Some s) ∈ [SENDING_KASPA; IMPORTING_WALLET]) = false).
  { apply bool_decide_eq_false_2. simpl. rewrite !elem_of_cons, elem_of_nil. intuition. }
  unfold start, handleWalletCommand. rewrite Hdm. simpl. rewrite Hs, Hin. simpl.
  destruct s; try congruence; simpl.
  2: destruct (networkOf (userSettings w !! author message)); simpl.
  all: eexists; split; [reflexivity|]; split; [reflexivity|]; split; reflexivity.
Qed.

(** X13. When the rate limiter refuses the network selection, a first
    command from a DM sends the welcome and nothing else, reports exactly
    one error, leaves both maps untouched and returns; when the welcome was
    delivered, the error reported is the RATE_LIMIT_EXCEEDED thrown by
    [promptNetworkSelection], caught by the handler. *)
Theorem refused_selection_is_reported env message w :
  chType (channel message) = DM ->
  userWalletStates w !! author message = None ->
  (forall n, tell env n (CheckRateLimit (author message) "networkSelection") = false) ->
  exists st e,
    run toEnd env 20 (start (handleWalletCommand message) w) = Returned st
    /\ world st = w
    /\ requests (trace st) = [ChannelSend (channel message) (Text welcomeText)]
    /\ reported (trace st) = [e]
    /\ (rejections (trace st) = [] -> codeOf e = Some "RATE_LIMIT_EXCEEDED").
Proof.
  intros Hdm Hs Hrefuse.
  assert (Hin : bool_decide (default IDLE None ∈ [SENDING_KASPA; IMPORTING_WALLET]) = false).
  { apply bool_decide_eq_false_2. simpl. rewrite !elem_of_cons, elem_of_nil.
    intros [?|[?|[]]]; discriminate. }
  unfold start, handleWalletCommand. rewrite Hdm. simpl. rewrite Hs, Hin. simpl.
  destruct (settle _ _) eqn:Hsend; simpl.
  - do 2 eexists. repeat split; try reflexivity. intros Hx; discriminate Hx.
  - unfold promptNetworkSelection, rateLimited. simpl. rewrite Hrefuse. simpl.
    do 2 eexists. repeat split; reflexivity.
Qed.

(** X14. [back] with the network selection refused by the rate limiter: the
    error thrown by [promptNetworkSelection] lands in the [catch] of the
    menu, which reports it and re-opens the menu.  The state written for
    [back] (NETWORK_SELECTION) is overwritten with WALLET_ACTIONS, the
    session is untouched, and the only requests made are the three of the
    menu itself. *)
Theorem back_to_refused_selection_reopens_menu env ch u w :
  (forall n, tell env n (CheckRateLimit u "networkSelection") = false) ->
  let r := run pastSelection env 30 (start (promptWalletActions ch u) w) in
  let tr := trace (final r) in
  existsb (deferred "back") tr = true ->
  exists st,
    r = Stopped st
    /\ prog st = Call (PromptWalletActions ch u) End
    /\ userWalletStates (world st) = <[u := WALLET_ACTIONS]> (userWalletStates w)
    /\ userSettings (world st) = userSettings w
    /\ codeOf <$> reported tr = [Some "RATE_LIMIT_EXCEEDED"]
    /\ length (requests tr) = 3%nat.
Proof.
  intros Hrefuse r. revert r.
  remember (run pastSelection env 30 (start (promptWalletActions ch u) w)) as r0 eqn:Hr.
  revert Hr. unfold start, promptWalletActions, promptNetworkSelection, rateLimited.
  repeat (simpl; first [rewrite Hrefuse | split_prog]); simpl.
  all: try (intros ->; simpl; intros Hb; try discriminate Hb;
            rewrite ?orb_false_r in Hb; try congruence;
            repeat match goal with
                   | Hx : (_ =? _)%string = true |- _ => apply String.eqb_eq in Hx
                   end; congruence).
  all: intros ->; simpl; intros _.
  all: eexists; split; [reflexivity|]; simpl.
  all: repeat split; try reflexivity.
  all: apply insert_insert_eq.
Qed.

End Resume.

(** ** A menu the rate limiter refuses *)

Section Refusal.
Context `{Lib}.

Lemma requests_ask q v tr : requests (EvAsk q v :: tr) = requests tr.
Proof. unfold requests. simpl. rewrite omap_app. simpl. apply app_nil_r. Qed.

Lemma reported_ask q v tr :
  reported (EvAsk q v :: tr)
  = (reported tr ++ match q return qans q -> list Err with
                    | HandleError e _ _ => fun _ => [e]
                    | _ => fun _ => []
                    end v)%list.
Proof. unfold reported. simpl. rewrite omap_app. simpl. destruct q; reflexivity. Qed.

Lemma refused_menu_loops env ch u :
  (forall n, tell env n (CheckRateLimit u "walletActions") = false) ->
  forall fuel stk w tr,
    requests tr = [] ->
    Forall (fun e => codeOf e = Some "RATE_LIMIT_EXCEEDED") (reported tr) ->
    exists st,
      run toEnd env fuel (mkState (promptWalletActions ch u) stk w tr) = OutOfFuel st
      /\ requests (trace st) = []
      /\ Forall (fun e => codeOf e = Some "RATE_LIMIT_EXCEEDED") (reported (trace st))
      /\ (length (reported tr) + fuel / 7 <= length (reported (trace st)))%nat.
Proof.
  intros Hrefuse fuel.
  induction fuel as [fuel IH] using lt_wf_ind. intros stk w tr Hreq Hrep.
  remember (fuel / 7)%nat as d eqn:Hd.
  unfold promptWalletActions, rateLimited.
  do 7 (destruct fuel as [|fuel];
        [ vm_compute in Hd; subst d;
          simpl; rewrite ?Hrefuse; simpl; eexists; split; [reflexivity|]; simpl;
          rewrite ?requests_ask, ?reported_ask, ?app_nil_r, ?length_app; simpl;
          repeat split; auto;
          try (apply Forall_app; split; [exact Hrep | repeat constructor]); lia
        | ]).
  assert (Hdiv : d = S (fuel / 7)).
  { subst d. replace (S (S (S (S (S (S (S fuel))))))) with (fuel + 1 * 7)%nat by lia.
    rewrite Nat.div_add by lia. lia. }
  clear Hd. subst d.
  simpl. rewrite ?Hrefuse. simpl. rewrite ?Hrefuse. simpl.
  match goal with
  | |- context [run toEnd env fuel (mkState _ ?stk' ?w' ?tr')] =>
      destruct (IH fuel ltac:(lia) stk' w' tr') as (st & Hrun & Hq & Hp & Hlen)
  end.
  - rewrite !requests_ask. exact Hreq.
  - rewrite !reported_ask, !app_nil_r. apply Forall_app. split; [exact Hrep | repeat constructor].
  - exists st. split; [exact Hrun|]. split; [exact Hq|]. split; [exact Hp|].
    rewrite !reported_ask, !app_nil_r, length_app in Hlen. simpl in Hlen. lia.
Qed.

(** X15. While the rate limiter refuses [walletActions], the actions menu
    never returns and never waits: its [catch] calls the menu again at once.
    Whatever the number of steps allowed, the run is still going, has asked
    nothing of the channel, and has reported only RATE_LIMIT_EXCEEDED
    errors, one for every seven steps taken. *)
Theorem refused_menu_never_returns env ch u w fuel :
  (forall n, tell env n (CheckRateLimit u "walletActions") = false) ->
  exists st,
    run toEnd env fuel (start (promptWalletActions ch u) w) = OutOfFuel st
    /\ requests (trace st) = []
    /\ Forall (fun e => codeOf e = Some "RATE_LIMIT_EXCEEDED") (reported (trace st))
    /\ (fuel / 7 <= length (reported (trace st)))%nat.
Proof.
  intros Hrefuse.
  destruct (refused_menu_loops env ch u Hrefuse fuel [] w []) as (st & Hrun & Hq & Hp & Hlen);
    [reflexivity | constructor |].
  exists st. auto.
Qed.

End Refusal.

(** ** The default branch of the handler *)

Section DeadBranch.
Context `{Lib}.

Ltac command_requests :=
  repeat match goal with
         | |- Forall _ _ =>
             constructor
         | |- _ \/ _ =>
             first [ left; reflexivity
                   | right; left; reflexivity
                   | right; right; eexists; reflexivity ]
         end.

(** X16. In any state the system can reach, handling a command up to the
    first routine it calls writes neither map: the [default] branch of the
    handler's [switch], the only place where the handler itself writes, is
    never taken, since no routine ever records CHECKING_BALANCE or
    VIEWING_HISTORY.  The only requests the handler itself makes are the
    opening of the DM channel, the notice in the guild channel and the
    welcome. *)
Theorem reachable_command_writes_nothing s env message :
  reachable s ->
  let r := run atCall env 10 (start (handleWalletCommand message) (shared s)) in
  world (final r) = shared s
  /\ Forall (fun q => q = CreateDM (author message)
                      \/ q = Reply dmNotice
                      \/ exists ch, q = ChannelSend ch (Text welcomeText))
       (requests (trace (final r))).
Proof.
  intros Hreach.
  destruct (reachable_onlyUsedStates s Hreach (author message)) as [Hc Hv].
  revert Hc Hv. generalize (shared s). clear s Hreach. intros w Hc Hv r. revert r.
  remember (run atCall env 10 (start (handleWalletCommand message) w)) as r0 eqn:Hr.
  revert Hr. unfold start, handleWalletCommand.
  destruct (userWalletStates w !! author message) as [s0|] eqn:Hs.
  - destruct s0; try congruence.
    all: repeat (simpl; first [ rewrite Hs | split_prog ]); simpl.
    all: intros ->; simpl; split; [reflexivity|].
    all: unfold requests; simpl; command_requests.
  - repeat (simpl; first [ rewrite Hs | split_prog ]); simpl.
    all: intros ->; simpl; split; [reflexivity|].
    all: unfold requests; simpl; command_requests.
Qed.

End DeadBranch.

(** ** Clearing the chat *)

Section Clearing.
Context `{Lib}.

Lemma run_returned env fuel st st' :
  run toEnd env fuel st = Returned st' -> runs env st st' /\ step env st' = None.
Proof.
  revert st. induction fuel as [|fuel IH]; intros st; rewrite run_eq; unfold toEnd at 1.
  - discriminate.
  - destruct (step env st) as [st1|] eqn:Est.
    + intros Hrun. destruct (IH _ Hrun) as [Hruns Hend].
      split; [eapply runs_step; eassumption | exact Hend].
    + destruct (prog st); intros [= <-]; (split; [apply runs_here | exact Est]).
Qed.

Lemma requests_cons ev tr :
  requests (ev :: tr)
  = (requests tr ++ match ev with EvReq q _ => [q] | EvAsk _ _ => [] end)%list.
Proof. unfold requests. simpl. rewrite omap_app. simpl. destruct ev; reflexivity. Qed.

Lemma deletions_cons ev tr :
  deletions (ev :: tr)
  = (deletions tr ++ match ev with EvReq (MessageDelete m) _ => [m] | _ => [] end)%list.
Proof.
  unfold deletions. rewrite requests_cons, omap_app.
  destruct ev as [q r|q v]; [destruct q|]; reflexivity.
Qed.

Lemma fetchedMessages_cons ev tr :
  fetchedMessages (ev :: tr) = (fetchedMessages tr ++ fetched ev)%list.
Proof.
  unfold fetchedMessages. simpl. rewrite fmap_app, concat_app. simpl.
  rewrite app_nil_r. reflexivity.
Qed.

Lemma rejections_cons ev tr :
  rejections (ev :: tr) = (rejections tr ++ from_option (fun e => [e]) [] (rejection ev))%list.
Proof.
  unfold rejections. simpl. rewrite omap_app. simpl.
  destruct (rejection ev); reflexivity.
Qed.

Lemma rejectedDeletions_cons ev tr :
  rejectedDeletions (ev :: tr)
  = (rejectedDeletions tr ++ from_option (fun d => [d]) [] (rejectedDeletion ev))%list.
Proof.
  unfold rejectedDeletions. simpl. rewrite omap_app. simpl.
  destruct (rejectedDeletion ev); reflexivity.
Qed.

Lemma reported_cons ev tr :
  reported (ev :: tr)
  = (reported tr ++ match ev with
                    | EvAsk (HandleError e _ _) _ => [e]
                    | _ => []
                    end)%list.
Proof.
  unfold reported. simpl. rewrite omap_app. simpl.
  destruct ev as [q r|q v]; [|destruct q]; reflexivity.
Qed.

(** The loop of lines 539-541, under the [catch] of the routine: it asks to
    delete the messages in order; when every deletion went through it sends
    the notice, and at the first deletion that fails it stops, the error
    going to [handleError]. *)
Lemma deleteEach_runs env ch handlerCtx w todo :
  let stk := [ KCatch (fun error => Ask (HandleError error ch handlerCtx) (fun _ => End));
               KSeq End ] in
  let k := Await (ChannelSend ch (Text clearedNotice)) Throw (fun _ => End) in
  forall tr,
  exists st' done,
    runs env (mkState (deleteEach todo k) stk w tr) st'
    /\ step env st' = None /\ prog st' = End /\ world st' = w
    /\ done `prefix_of` todo
    /\ deletions (trace st') = (deletions tr ++ done)%list
    /\ fetchedMessages (trace st') = fetchedMessages tr
    /\ ((done = todo
         /\ rejectedDeletions (trace st') = rejectedDeletions tr
         /\ last (requests (trace st')) = Some (ChannelSend ch (Text clearedNotice))
         /\ (rejections (trace st') = rejections tr -> reported (trace st') = reported tr))
        \/ (exists m e,
              rejectedDeletions (trace st') = (rejectedDeletions tr ++ [(m, e)])%list
              /\ rejections (trace st') = (rejections tr ++ [e])%list
              /\ last (requests (trace st')) = Some (MessageDelete m)
              /\ reported (trace st') = (reported tr ++ [e])%list)).
Proof.
  intros stk k. induction todo as [|m rest IH]; intros tr.
  - pose proof (run_returned env 6 (mkState (deleteEach [] k) stk w tr)) as Hrun.
    subst stk k. simpl in Hrun.
    destruct (settle _ _) as [e|v] eqn:Hsend; simpl in Hrun.
    all: edestruct Hrun as [Hruns Hend]; [reflexivity|].
    all: do 2 eexists; split; [exact Hruns|]; split; [exact Hend|]; simpl.
    all: split; [reflexivity|]; split; [reflexivity|].
    all: split; [apply prefix_nil|].
    all: rewrite ?deletions_cons, ?fetchedMessages_cons, ?rejectedDeletions_cons,
           ?rejections_cons, ?reported_cons, ?requests_cons; simpl;
         rewrite ?app_nil_r, ?last_snoc.
    all: split; [reflexivity|]; split; [reflexivity|].
    all: left; split; [reflexivity|]; split; [reflexivity|]; split; [reflexivity|].
    + intros Hx. apply (f_equal length) in Hx. rewrite length_app in Hx. simpl in Hx. lia.
    + intros _. reflexivity.
  - destruct (settle (MessageDelete m) (reply env (length tr) (MessageDelete m)))
      as [e|v] eqn:Hdel.
    + pose proof (run_returned env 7 (mkState (deleteEach (m :: rest) k) stk w tr)) as Hrun.
      subst stk k. simpl in Hrun. rewrite Hdel in Hrun. simpl in Hrun.
      edestruct Hrun as [Hruns Hend]; [reflexivity|].
      eexists. exists [m]. split; [exact Hruns|]. split; [exact Hend|]. simpl.
      split; [reflexivity|]. split; [reflexivity|].
      split; [apply prefix_cons, prefix_nil|].
      rewrite ?deletions_cons, ?fetchedMessages_cons, ?rejectedDeletions_cons,
        ?rejections_cons, ?reported_cons, ?requests_cons; simpl.
      rewrite ?app_nil_r, ?last_snoc.
      split; [reflexivity|]. split; [reflexivity|].
      right. exists m, e. repeat split; reflexivity.
    + destruct (IH (EvReq (MessageDelete m) (inr v) :: tr))
        as (st' & done & Hruns & Hend & Hp & Hw & Hpre & Hdels & Hfetch & Hout).
      exists st', (m :: done). split.
      { eapply runs_step; [|exact Hruns]. unfold step. simpl. rewrite Hdel. reflexivity. }
      split; [exact Hend|]. split; [exact Hp|]. split; [exact Hw|].
      split; [apply prefix_cons, Hpre|].
      rewrite Hdels, Hfetch, deletions_cons, fetchedMessages_cons. simpl.
      rewrite app_nil_r, <- app_assoc. simpl.
      split; [reflexivity|]. split; [reflexivity|].
      rewrite rejectedDeletions_cons, rejections_cons, reported_cons in Hout. simpl in Hout.
      rewrite !app_nil_r in Hout.
      destruct Hout as [(-> & Hrd & Hlast & Hrep) | (m' & e & Hrd & Hrj & Hlast & Hrep)].
      * left. auto.
      * right. exists m', e. auto.
Qed.

(** X17. [clearChatHistory] always returns, with both maps untouched.  The
    deletions it asks for are, in order, a prefix of the fetched messages
    whose author is the bot: no message of anyone else is ever deleted.  The
    loop stops at the first deletion that fails: a rejected deletion is the
    only one, it is the last request of the routine (no further deletion, no
    notice) and its error is the one reported.  The closing notice (line
    545) is only sent once every fetched bot message has been deleted, none
    rejected; and it is sent, with nothing reported, whenever the rate
    limiter allows, the channel is a DM and nothing is rejected.  In a
    channel that is not a DM nothing is requested at all. *)
Theorem clearChatHistory_deletes_bot_messages env ch u w :
  exists fuel st,
    run toEnd env fuel (start (clearChatHistory ch u) w) = Returned st
    /\ world st = w
    /\ deletions (trace st)
         `prefix_of` map fst (filter (fun m => snd m = botId) (fetchedMessages (trace st)))
    /\ (forall m e,
          (m, e) ∈ rejectedDeletions (trace st) ->
          rejectedDeletions (trace st) = [(m, e)]
          /\ last (requests (trace st)) = Some (MessageDelete m)
          /\ reported (trace st) = [e])
    /\ (last (requests (trace st)) = Some (ChannelSend ch (Text clearedNotice)) ->
        rejectedDeletions (trace st) = []
        /\ deletions (trace st)
           = map fst (filter (fun m => snd m = botId) (fetchedMessages (trace st))))
    /\ (tell env 0 (CheckRateLimit u "clearChatHistory") = true ->
        chType ch = DM ->
        rejections (trace st) = [] ->
        last (requests (trace st)) = Some (ChannelSend ch (Text clearedNotice))
        /\ reported (trace st) = [])
    /\ (chType ch = GuildText -> requests (trace st) = []).
Proof.
  destruct (negb (tell env 0 (CheckRateLimit u "clearChatHistory"))) eqn:Hlimit.
  { exists 9%nat. unfold start, clearChatHistory, rateLimited. simpl. rewrite Hlimit. simpl.
    eexists. split; [reflexivity|]. simpl.
    apply negb_true_iff in Hlimit.
    repeat split; try reflexivity; try apply prefix_nil; try discriminate; try congruence.
    all: match goal with
         | Hin : _ ∈ _ |- _ =>
             unfold rejectedDeletions in Hin; simpl in Hin; apply elem_of_nil in Hin; destruct Hin
         end. }
  destruct (chType ch) eqn:Hch.
  2:{ exists 8%nat. unfold start, clearChatHistory, rateLimited. simpl.
      rewrite Hlimit, Hch. simpl.
      eexists. split; [reflexivity|]. simpl.
      repeat split; try reflexivity; try apply prefix_nil; try discriminate.
      all: match goal with
         | Hin : _ ∈ _ |- _ =>
             unfold rejectedDeletions in Hin; simpl in Hin; apply elem_of_nil in Hin; destruct Hin
         end. }
  destruct (settle (MessagesFetch ch 100) (reply env 1 (MessagesFetch ch 100)))
    as [e|messages] eqn:Hfetch.
  { exists 9%nat. unfold start, clearChatHistory, rateLimited. simpl.
    rewrite Hlimit, Hch. simpl. rewrite Hfetch. simpl.
    eexists. split; [reflexivity|]. simpl.
    repeat split; try reflexivity; try discriminate; try apply prefix_nil.
    all: match goal with
         | Hin : _ ∈ _ |- _ =>
             unfold rejectedDeletions in Hin; simpl in Hin; apply elem_of_nil in Hin; destruct Hin
         end. }
  pose (tr0 := [ EvReq (MessagesFetch ch 100) (inr messages);
                 EvAsk (CheckRateLimit u "clearChatHistory")
                   (tell env 0 (CheckRateLimit u "clearChatHistory")) ]).
  pose (bots := map fst (filter (fun m => snd m = botId) messages)).
  destruct (deleteEach_runs env ch "clearChatHistory" w bots tr0)
    as (st' & done & Hruns & Hend & Hp & Hw & Hpre & Hdels & Hfetched & Hout).
  assert (Hfront : runs env (start (clearChatHistory ch u) w)
                     (mkState
                        (deleteEach bots
                           (Await (ChannelSend ch (Text clearedNotice)) Throw (fun _ => End)))
                        [ KCatch (fun error =>
                                    Ask (HandleError error ch "clearChatHistory") (fun _ => End));
                          KSeq End ] w tr0)).
  { unfold start, clearChatHistory, rateLimited.
    eapply runs_step; [reflexivity|]. simpl.
    eapply runs_step; [reflexivity|]. simpl. rewrite Hlimit, Hch.
    eapply runs_step; [unfold step; simpl; rewrite Hfetch; reflexivity|].
    apply runs_here. }
  destruct (runs_toEnd env _ _ (runs_trans env _ _ _ Hfront Hruns) Hend) as (fuel & Hrun).
  rewrite Hp in Hrun.
  exists fuel, st'. split; [exact Hrun|]. split; [exact Hw|].
  rewrite Hdels, Hfetched.
  change (deletions tr0) with (@nil nat). change (fetchedMessages tr0) with (messages ++ [])%list.
  rewrite app_nil_r. simpl.
  split; [exact Hpre|].
  change (rejectedDeletions tr0) with (@nil (nat * Err)) in Hout.
  change (rejections tr0) with (@nil Err) in Hout.
  change (reported tr0) with (@nil Err) in Hout.
  simpl in Hout.
  destruct Hout as [(-> & Hrd & Hlast & Hrep) | (m & e & Hrd & Hrj & Hlast & Hrep)].
  - rewrite Hrd, Hlast. split.
    { intros m e Hin. apply elem_of_nil in Hin. destruct Hin. }
    split; [intros _; split; reflexivity|].
    split; [intros _ _ Hrj; split; [reflexivity | apply Hrep; exact Hrj]|].
    discriminate.
  - rewrite Hrd, Hrj, Hlast, Hrep. split.
    { intros m0 e0 Hin. rewrite elem_of_cons, elem_of_nil in Hin. destruct Hin as [Hin|[]].
      injection Hin as -> ->.
      repeat split; reflexivity. }
    split; [discriminate|].
    split; [intros _ _ Hx; discriminate Hx|].
    discriminate.
Qed.

End Clearing.

(** ** The history and the balance *)

Section Views.
Context `{Lib}.




End Views.

(** ** The properties above at work *)

Lemma routines_never_throw_witness :
  neverThrows (SendKaspaPrompt dmChannel alice) = true
  /\ run toEnd (scripted (sendScript "kaspa:bob" "0.29" "confirm_send")) 30
       (start (body (SendKaspaPrompt dmChannel alice)) readyWorld)
     <> Uncaught RangeError (start (Throw RangeError) readyWorld).
Proof.
  split; [reflexivity|].
  apply routines_never_throw. reflexivity.
Defined.

Lemma dm_command_never_throws_witness :
  chType (channel dmCommand) = DM
  /\ run toEnd (limiting "networkSelection" [Fine]) 20
       (start (handleWalletCommand dmCommand) emptyWorld)
     <> Uncaught Timeout (start (Throw Timeout) emptyWorld).
Proof.
  split; [reflexivity|].
  apply dm_command_never_throws. reflexivity.
Defined.

Lemma command_leaves_other_users_alone_witness :
  let st := final (run toEnd (scripted selectionScript) 40
                     (start (handleWalletCommand (mkMessage "bob" dmChannel "!wallet"))
                        readyWorld)) in
  alice <> "bob"
  /\ userWalletStates (world st) !! alice = Some WALLET_ACTIONS
  /\ userSettings (world st) !! alice = userSettings readyWorld !! alice.
Proof.
  intros st.
  assert (Hne : alice <> "bob") by discriminate.
  split; [exact Hne|].
  destruct (command_leaves_other_users_alone (scripted selectionScript) toEnd 40
              (mkMessage "bob" dmChannel "!wallet") readyWorld alice Hne) as [Hs Hn].
  split; [|exact Hn].
  fold st in Hs. rewrite Hs. vm_compute. reflexivity.
Defined.

Lemma view_actions_write_nothing_witness :
  isViewAction (ClearChatHistory dmChannel alice) = true
  /\ world (final (run toEnd (scripted [Fine; Fine; Fine]) 20
                     (start (body (ClearChatHistory dmChannel alice)) readyWorld)))
     = readyWorld.
Proof.
  split; [reflexivity|].
  apply view_actions_write_nothing. reflexivity.
Defined.

Lemma rejected_transfer_is_not_reported_witness :
  let tr := trace (final (run atCall (scripted refusedTransferScript) 40
                            (start (sendKaspaPrompt dmChannel alice) readyWorld))) in
  existsb transferRejected tr = true
  /\ last (requests tr) = Some (ChannelSend dmChannel (Text confirmationFailed)).
Proof.
  intros tr.
  assert (Hrej : existsb transferRejected tr = true) by (vm_compute; reflexivity).
  split; [exact Hrej|].
  exact (proj1 (rejected_transfer_is_not_reported (scripted refusedTransferScript) dmChannel
                  alice readyWorld Hrej)).
Defined.

Lemma command_resumes_recorded_state_witness :
  userWalletStates readyWorld !! author dmCommand = Some WALLET_ACTIONS
  /\ exists st,
       run atCall (scripted []) 10 (start (handleWalletCommand dmCommand) readyWorld)
       = Stopped st
       /\ prog st = Call (PromptWalletActions dmChannel alice) End.
Proof.
  assert (Hs : userWalletStates readyWorld !! author dmCommand = Some WALLET_ACTIONS)
    by (vm_compute; reflexivity).
  split; [exact Hs|].
  destruct (command_resumes_recorded_state (scripted []) dmCommand readyWorld WALLET_ACTIONS
              eq_refl Hs) as (st & Hrun & _ & _ & Hp); try discriminate.
  exists st. split; [exact Hrun | exact Hp].
Defined.

Lemma refused_selection_is_reported_witness :
  userWalletStates emptyWorld !! author dmCommand = None
  /\ exists st e,
       run toEnd (limiting "networkSelection" [Fine]) 20
         (start (handleWalletCommand dmCommand) emptyWorld) = Returned st
       /\ reported (trace st) = [e]
       /\ codeOf e = Some "RATE_LIMIT_EXCEEDED".
Proof.
  assert (Hs : userWalletStates emptyWorld !! author dmCommand = None)
    by (vm_compute; reflexivity).
  split; [exact Hs|].
  destruct (refused_selection_is_reported (limiting "networkSelection" [Fine]) dmCommand
              emptyWorld eq_refl Hs) as (st & e & Hrun & _ & _ & Hrep & Hcode).
  - intros n. reflexivity.
  - exists st, e. split; [exact Hrun|]. split; [exact Hrep|].
    apply Hcode. vm_compute in Hrun. simplify_eq. reflexivity.
Defined.

Lemma back_to_refused_selection_reopens_menu_witness :
  exists st,
    run pastSelection (limiting "networkSelection" backScript) 30
      (start (promptWalletActions dmChannel alice) readyWorld) = Stopped st
    /\ existsb (deferred "back") (trace st) = true
    /\ prog st = Call (PromptWalletActions dmChannel alice) End
    /\ userWalletStates (world st) !! alice = Some WALLET_ACTIONS.
Proof.
  assert (Hrefuse : forall n, tell (limiting "networkSelection" backScript) n
                                (CheckRateLimit alice "networkSelection") = false)
    by (intros n; reflexivity).
  assert (Hb : existsb (deferred "back")
                 (trace (final (run pastSelection (limiting "networkSelection" backScript) 30
                                  (start (promptWalletActions dmChannel alice) readyWorld))))
               = true)
    by (vm_compute; reflexivity).
  pose proof (back_to_refused_selection_reopens_menu (limiting "networkSelection" backScript)
                dmChannel alice readyWorld Hrefuse) as Hmenu.
  cbv zeta in Hmenu.
  destruct (Hmenu Hb) as (st & Hrun & Hp & Hs & _).
  exists st. split; [exact Hrun|].
  rewrite Hrun in Hb. split; [exact Hb|]. split; [exact Hp|].
  rewrite Hs. apply lookup_insert_eq.
Defined.

Lemma refused_menu_never_returns_witness :
  exists st,
    run toEnd (limiting "walletActions" []) 21
      (start (promptWalletActions dmChannel alice) readyWorld) = OutOfFuel st
    /\ (3 <= length (reported (trace st)))%nat.
Proof.
  destruct (refused_menu_never_returns (limiting "walletActions" []) dmChannel alice readyWorld
              21 (fun n => eq_refl)) as (st & Hrun & _ & _ & Hlen).
  exists st. split; [exact Hrun | exact Hlen].
Defined.

Lemma reachable_command_writes_nothing_witness :
  let st := final (run (atCallOf isPromptWalletOptions) (scripted selectionScript) 40
                     (start (handleWalletCommand dmCommand) emptyWorld)) in
  userWalletStates (world st) !! alice = Some WALLET_OPTIONS
  /\ world (final (run atCall (scripted []) 10
                     (start (handleWalletCommand dmCommand) (world st)))) = world st.
Proof.
  intros st. split; [vm_compute; reflexivity|].
  pose proof (run_reachable (atCallOf isPromptWalletOptions) (scripted selectionScript) 40
                dmCommand) as Hreach.
  change (reachable (mkSys (world st) [(prog st, stack st)])) in Hreach.
  exact (proj1 (reachable_command_writes_nothing _ (scripted []) dmCommand Hreach)).
Defined.

